(** * process_model.py: job control for a scripted Revit run

    The script resolves a command plugin, writes a journal and an add-in
    file, starts Revit on the journal, watches the started process once a
    second up to a timeout, kills the worker at the deadline and reports
    to a csv log and to the graph collaborators.

    The script is embedded as a function of the [World] it is started in
    (command line, file system, what the started process does) into a
    writer-and-error monad: the value is how the script ends, the trace
    is every effect it performs, in order.

    Modelling notes.  The collaborators ([rps_xml], [rvt_journal_writer],
    [olefile], [winreg], the bokeh updaters, [logging]) are outside the
    script: a call of one is an event of the trace, and where the script
    uses the value a collaborator returns, the [World] supplies it
    ([None] standing for an exception raised there).  [int(timeout)],
    the import of a plugin module and the process start are taken to
    succeed.  Paths are joined with the Windows separator.  The script's
    own [get_rvt_file_version] and [installed_rvt_detection] are modelled
    apart, over the file's text and the registry's subkeys, and put behind
    a [World] by [with_autodetect]. *)

From stdpp Require Import base strings gmap list.
From Stdlib Require Import ZArith Lia Ascii.

Open Scope Z_scope.

(** ** Data *)

(** The docopt dictionary.  [timeout] is the value after [int(...)]. *)
Record Args := {
  command : string;
  project_code : string;
  model_path : string;
  model_file_name : string;
  rvt_version_path : string;
  rvt_version : string;
  timeout : Z;
  html_path : option string
}.

(** A psutil process handle. *)
Record proc := { pid : Z; pname : string }.

(** One entry of [os.scandir(commands_dir)].  [register] is the
    module-level [register] dict of the entry's [__init__.py], [None] when
    the module has no such attribute. *)
Record dir_entry := {
  entry_name : string;
  register : option (gmap string string)
}.

Inductive exn := KeyError | IndexError | CollaboratorError.

(** What the script is started in.  The last block is the behaviour of the
    process the script starts: its handle, what [children()] returns at
    each of the three calls, and what [poll()] returns at each tick. *)
Record World := {
  args : Args;
  root_dir : string;
  path_exists : string → bool;
  scandir_commands : list dir_entry;
  current_proc_hash : Z;
  get_rps_button : string → string → option string;
  warnings_export_command : string → string → string;
  get_rvt_file_version : option (option string);
  installed_rvt_detection : option string → option string;
  run_proc : proc;
  children : nat → list proc;
  poll_at : nat → option Z
}.

(** ** Effects *)

Inductive level := INFO | WARNING.

(** A row handed to the logging module: the task_started row of line 251
    and the result rows [project;hash;code]. *)
Inductive row :=
| TaskStarted (project : string) (hash : Z) (a : Args)
| Result (project : string) (hash : Z) (code : Z).

Inductive template :=
| audit_detach_template
| detach_rps_template
| rps_addin_template.

(** Everything the script prints. *)
Inductive message :=
| MsgStarted (cmd : string)
| MsgPathStructure
| MsgPath (key value : string)
| MsgHtmlPathNotFound (fallback : string)
| MsgLoggingGoesTo (path : string)
| MsgProcessStructure
| MsgCurrentHash (hash : Z)
| MsgInitNotFound
| MsgCommandDirNotFound (cmd : string)
| MsgInitiating (p : Z) (name : string)
| MsgChildCount (n : nat)
| MsgFirstChild (p : Z) (is_revit : bool) (name : string)
| MsgModelVersion (v : option string)
| MsgInstalledAt
| MsgInstallPath (path : string)
| MsgCountdown
| MsgTimeoutUntil (p : Z) (name : string)
| MsgSeconds (left : Z)
| MsgFinished (poll : Z)
| MsgNewline
| MsgTimeout
| MsgKillChild (p : Z)
| MsgModelNotFound
| MsgEnded
| MsgDeprecated.

Inductive event :=
| Print (m : message)
| WriteLogHeader (path : string)
| Log (l : level) (r : row)
| SetEnv (key value : string)
| WriteJournal (path : string) (t : template)
    (model_dir model_file fragment : string)
| WriteAddin (path : string) (t : template) (version : string)
| Popen (program journal_file cwd : string)
| Sleep
| Poll (p : proc)
| Kill (p : proc)
| UpdateGraphs (project : string) (html : option string)
| UpdateJsonAndBokeh (project : string) (html : option string).

(** How a computation ends: with a value, by [exit()], or by an exception
    nobody catches. *)
Inductive res (A : Type) :=
| Ret (a : A)
| SystemExit
| Raised (e : exn).
Arguments Ret {A} a.
Arguments SystemExit {A}.
Arguments Raised {A} e.

Record M (A : Type) := Run { result : res A; trace : list event }.
Arguments Run {A} result trace.
Arguments result {A} m.
Arguments trace {A} m.

#[global] Instance M_ret : MRet M := λ A a, Run (Ret a) [].

#[global] Instance M_bind : MBind M := λ A B f m,
  match result m with
  | Ret a => let k := f a in Run (result k) (trace m ++ trace k)
  | SystemExit => Run SystemExit (trace m)
  | Raised e => Run (Raised e) (trace m)
  end.

Definition tell (e : event) : M unit := Run (Ret tt) [e].
Definition print (m : message) : M unit := tell (Print m).
Definition sys_exit {A} : M A := Run SystemExit [].
Definition raise {A} (e : exn) : M A := Run (Raised e) [].
Definition skip : M unit := mret tt.

(** A collaborator that either returns or raises. *)
Definition call {A} (o : option A) : M A :=
  match o with Some a => mret a | None => raise CollaboratorError end.

(** [d[k]] on a dict. *)
Definition getitem (d : gmap string string) (k : string) : M string :=
  match d !! k with Some v => mret v | None => raise KeyError end.

(** [l[0]] on a list. *)
Definition first {A} (l : list A) : M A :=
  match l with x :: _ => mret x | [] => raise IndexError end.

(** ** Paths *)

(** [op.sep] on Windows: the backslash (character 92). *)
Definition op_sep : string := String (Ascii.ascii_of_nat 92) EmptyString.

(** [op.join] of a directory and a relative name. *)
Definition op_join (a b : string) : string := a +:+ op_sep +:+ b.

Record Paths := {
  logs_dir : string;
  warnings_dir : string;
  journals_dir : string;
  commands_dir : string;
  com_warnings_dir : string;
  com_qc_dir : string
}.

Definition paths_of (root : string) : Paths := {|
  logs_dir := op_join root "logs";
  warnings_dir := op_join root ("warnings" +:+ op_sep);
  journals_dir := op_join root "journals";
  commands_dir := op_join root "commands";
  com_warnings_dir := op_join (op_join root "commands") "warnings";
  com_qc_dir := op_join (op_join root "commands") "qc"
|}.

Definition get_paths_dict (root : string) : M Paths :=
  let p := paths_of root in
  print (MsgPath "root_dir" root);;
  print (MsgPath "logs_dir" (logs_dir p));;
  print (MsgPath "warnings_dir" (warnings_dir p));;
  print (MsgPath "journals_dir" (journals_dir p));;
  print (MsgPath "commands_dir" (commands_dir p));;
  print (MsgPath "com_warnings_dir" (com_warnings_dir p));;
  print (MsgPath "com_qc_dir" (com_qc_dir p));;
  mret p.

(** ** command_detection *)

Section Detection.
Variable w : World.
Variables (search_command cmds_dir rvt_ver root project : string).

(** The body of the [if "register" in dir(mod)] block for one module. *)
Definition read_register (command_name : string)
    (reg : gmap string string) (com_dict : gmap string string)
    : M (gmap string string) :=
  name ← getitem reg "name";
  if bool_decide (name = command_name) then
    d1 ← match reg !! "get_rps_button" with
         | Some button_name =>
             rps_button ← call (get_rps_button w rvt_ver button_name);
             mret (<[command_name := rps_button]> com_dict)
         | None => mret com_dict
         end;
    match reg !! "rvt_journal_writer" with
    | Some kind =>
        if bool_decide (kind = "warnings_export_command") then
          let warnings_command_dir := op_join root ("warnings" +:+ op_sep) in
          let warn_cmd := warnings_export_command w warnings_command_dir project in
          mret (<[command_name := warn_cmd]> d1)
        else if bool_decide (kind = "audit") then
          mret (<[command_name := "' "]> d1)
        else mret d1
    | None => mret d1
    end
  else mret com_dict.

(** The [for directory in os.scandir(commands_dir)] loop, threading
    [com_dict] and [found_dir]. *)
Fixpoint scan (entries : list dir_entry)
    (com_dict : gmap string string) (found_dir : bool)
    : M (gmap string string * bool) :=
  match entries with
  | [] => mret (com_dict, found_dir)
  | directory :: rest =>
      let command_name := entry_name directory in
      if bool_decide (search_command = command_name) then
        (if path_exists w (cmds_dir +:+ "/" +:+ command_name +:+ "/__init__.py")
         then skip
         else print MsgInitNotFound;; sys_exit);;
        com_dict' ← match register directory with
                    | Some reg => read_register command_name reg com_dict
                    | None => mret com_dict
                    end;
        scan rest com_dict' true
      else scan rest com_dict found_dir
  end.

Definition command_detection : M (gmap string string) :=
  '(com_dict, found_dir) ← scan (scandir_commands w) ∅ false;
  if negb found_dir then
    print (MsgCommandDirNotFound search_command);; sys_exit
  else mret com_dict.
End Detection.

(** ** The script body *)

(** Python's [not x] on a string-or-None and on an int-or-None. *)
Definition falsy_str (s : option string) : bool :=
  match s with
  | None => true
  | Some s => bool_decide (s = EmptyString)
  end.

Definition falsy_int (z : option Z) : bool :=
  match z with
  | None => true
  | Some z => bool_decide (z = 0)
  end.

Section Script.
Variable w : World.

Local Abbreviation a := (args w).
Local Abbreviation paths := (paths_of (root_dir w)).

Definition rvt_model_path : string := model_path a +:+ model_file_name a.
Definition journal_file_path : string :=
  op_join (journals_dir paths) (project_code a +:+ ".txt").
Definition model_exists : bool := path_exists w rvt_model_path.
Definition job_logging : string := op_join (logs_dir paths) "job_logging.csv".
Definition addin_file_path : string :=
  op_join (journals_dir paths) "RevitPythonShell.addin".

(** Lines 221-232: the html path the graph collaborators get. *)
Definition choose_html_path : M (option string) :=
  if falsy_str (html_path a) then
    if bool_decide (command a = "qc") then mret (Some (com_qc_dir paths))
    else if bool_decide (command a = "warnings") then
      mret (Some (com_warnings_dir paths))
    else mret (html_path a)
  else if negb (path_exists w (default EmptyString (html_path a))) then
    if bool_decide (command a = "qc") then
      print (MsgHtmlPathNotFound (com_qc_dir paths));;
      mret (Some (com_qc_dir paths))
    else if bool_decide (command a = "warnings") then
      print (MsgHtmlPathNotFound (com_warnings_dir paths));;
      mret (Some (com_warnings_dir paths))
    else mret (html_path a)
  else mret (html_path a).

(** Lines 210-255: everything before [command_detection]. *)
Definition startup : M (option string) :=
  print (MsgStarted (command a));;
  print MsgPathStructure;;
  get_paths_dict (root_dir w);;
  html ← choose_html_path;
  (if negb (path_exists w job_logging) then
     tell (WriteLogHeader job_logging);;
     print (MsgLoggingGoesTo job_logging)
   else skip);;
  print MsgProcessStructure;;
  print (MsgCurrentHash (current_proc_hash w));;
  tell (Log INFO (TaskStarted (project_code a) (current_proc_hash w) a));;
  tell (SetEnv "RVT_QC_PRJ" (project_code a));;
  tell (SetEnv "RVT_QC_PATH" rvt_model_path);;
  tell (SetEnv "RVT_LOG_PATH" (logs_dir paths));;
  mret html.

(** Lines 310-330: the main timeout loop over [range(timeout)]; leaving
    the recursion is the [break]. *)
Fixpoint poll_loop (child_proc : proc) (child_pid : Z)
    (html : option string) (secs : list nat) : M unit :=
  match secs with
  | [] => skip
  | sec :: rest =>
      tell Sleep;;
      print (MsgSeconds (timeout a - Z.of_nat sec));;
      tell (Poll (run_proc w));;
      let poll := poll_at w sec in
      if bool_decide (poll = Some 0) then
        print (MsgFinished 0);;
        tell (Log INFO (Result (project_code a) (current_proc_hash w) 0));;
        (if bool_decide (command a = "qc") then
           tell (UpdateGraphs (project_code a) html)
         else skip)
      else if bool_decide (timeout a - Z.of_nat sec - 1 = 0) then
        print MsgNewline;;
        print MsgTimeout;;
        (if falsy_int poll then
           print (MsgKillChild child_pid);;
           tell (Kill child_proc);;
           (if negb (bool_decide (command a = "warnings")) then
              tell (Log WARNING
                      (Result (project_code a) (current_proc_hash w) 1))
            else skip)
         else skip);;
        poll_loop child_proc child_pid html rest
      else poll_loop child_proc child_pid html rest
  end.

Definition range (n : Z) : list nat := seq 0 (Z.to_nat n).

(** Lines 332-337. *)
Definition post_loop (html : option string) : M unit :=
  if bool_decide (command a = "warnings") then
    tell (UpdateJsonAndBokeh (project_code a) html);;
    tell (Log INFO (Result (project_code a) (current_proc_hash w) 0))
  else skip.

(** Lines 262-307: compose the job, start Revit on it and find the first
    child.  Returns [child_proc] and [child_pid]. *)
Definition launch (cmd_dict : gmap string string) : M (proc * Z) :=
  let journal_template :=
    if bool_decide (command a = "audit") then audit_detach_template
    else detach_rps_template in
  fragment ← getitem cmd_dict (command a);
  tell (WriteJournal journal_file_path journal_template
          (model_path a) (model_file_name a) fragment);;
  tell (WriteAddin addin_file_path rps_addin_template (rvt_version a));;
  tell (Popen (rvt_version_path a) journal_file_path (root_dir w));;
  print (MsgInitiating (pid (run_proc w)) (pname (run_proc w)));;
  tell Sleep;;
  child_proc ← first (children w 0);
  child ← first (children w 1);
  let child_pid := pid child in
  print (MsgChildCount (length (children w 2)));;
  print (MsgFirstChild child_pid
           (bool_decide (pname child_proc = "Revit.exe")) (pname child_proc));;
  rvt_model_version ← call (get_rvt_file_version w);
  print (MsgModelVersion rvt_model_version);;
  rvt_install_path ← call (installed_rvt_detection w rvt_model_version);
  print MsgInstalledAt;;
  print (MsgInstallPath rvt_install_path);;
  print MsgCountdown;;
  print (MsgTimeoutUntil child_pid (pname child_proc));;
  mret (child_proc, child_pid).

(** Lines 260-337: the branch taken when the model file exists. *)
Definition supervise (html : option string)
    (cmd_dict : gmap string string) : M unit :=
  '(child_proc, child_pid) ← launch cmd_dict;
  poll_loop child_proc child_pid html (range (timeout a));;
  post_loop html.

Definition detect : M (gmap string string) :=
  command_detection w (command a) (commands_dir paths) (rvt_version a)
    (root_dir w) (project_code a).

(** Lines 260-340. *)
Definition model_branch (html : option string)
    (cmd_dict : gmap string string) : M unit :=
  if model_exists then supervise html cmd_dict
  else print MsgModelNotFound.

(** Lines 342-346. *)
Definition finish : M unit :=
  print MsgEnded;;
  if negb (bool_decide (rvt_version_path a = EmptyString))
     || negb (bool_decide (rvt_version a = EmptyString))
  then print MsgDeprecated
  else skip.

Definition main : M unit :=
  html ← startup;
  cmd_dict ← detect;
  model_branch html cmd_dict;;
  finish.
End Script.

(** ** Reading traces *)

Definition polled : list event → list proc :=
  omap (λ e, match e with Poll p => Some p | _ => None end).

Definition killed : list event → list proc :=
  omap (λ e, match e with Kill p => Some p | _ => None end).

Definition printed : list event → list message :=
  omap (λ e, match e with Print m => Some m | _ => None end).

(** Rows appended to the csv log, with their level. *)
Definition logged : list event → list (level * row) :=
  omap (λ e, match e with Log l r => Some (l, r) | _ => None end).

(** Calls of a post-run collaborator ([update_graphs],
    [update_json_and_bokeh]). *)
Definition hooks : list event → list event :=
  omap (λ e, match e with
             | UpdateGraphs _ _ | UpdateJsonAndBokeh _ _ => Some e
             | _ => None
             end).

(** Files written under the journals directory. *)
Definition journal_writes : list event → list string :=
  omap (λ e, match e with
             | WriteJournal p _ _ _ _ | WriteAddin p _ _ => Some p
             | _ => None
             end).

Definition launched : list event → list event :=
  omap (λ e, match e with Popen _ _ _ => Some e | _ => None end).

(** Every write to a file: the log header, the log rows, the two
    artifacts. *)
Definition file_io : list event → list event :=
  omap (λ e, match e with
             | WriteLogHeader _ | Log _ _
             | WriteJournal _ _ _ _ _ | WriteAddin _ _ _ => Some e
             | _ => None
             end).

(** The operator is told the model was not found (line 340). *)
Definition not_found_reports : list event → list message :=
  omap (λ e, match e with Print MsgModelNotFound => Some MsgModelNotFound
             | _ => None end).

(** The two messages [command_detection] prints before it exits. *)
Definition is_abort_message (e : event) : Prop :=
  match e with
  | Print MsgInitNotFound | Print (MsgCommandDirNotFound _) => True
  | _ => False
  end.

(** Every key of the dict is the searched name and is the name of a
    scanned directory whose module registers itself under that name. *)
Definition resolved (search_command : string) (all : list dir_entry)
    (d : gmap string string) : Prop :=
  ∀ k, is_Some (d !! k) →
    k = search_command ∧
    ∃ e reg, e ∈ all ∧ entry_name e = k ∧ register e = Some reg ∧
             reg !! "name" = Some k.

(** The html path [startup] settles on. *)
Definition html_of (w : World) : option string :=
  match result (choose_html_path w) with Ret h => h | _ => None end.

(** What one pass of the timeout loop does before it looks at [poll], what
    the [poll == 0] branch adds, and what the deadline branch adds. *)
Definition tick_events (w : World) (sec : nat) : list event :=
  [Sleep; Print (MsgSeconds (timeout (args w) - Z.of_nat sec));
   Poll (run_proc w)].

Definition success_events (w : World) (html : option string) : list event :=
  [Print (MsgFinished 0);
   Log INFO (Result (project_code (args w)) (current_proc_hash w) 0)] ++
  (if bool_decide (command (args w) = "qc")
   then [UpdateGraphs (project_code (args w)) html] else []).

Definition deadline_events (w : World) (child_proc : proc) (child_pid : Z)
    (poll : option Z) : list event :=
  [Print MsgNewline; Print MsgTimeout] ++
  (if falsy_int poll then
     [Print (MsgKillChild child_pid); Kill child_proc] ++
     (if negb (bool_decide (command (args w) = "warnings"))
      then [Log WARNING
              (Result (project_code (args w)) (current_proc_hash w) 1)]
      else [])
   else []).

(** Rows appended at warning level. *)
Definition warning_rows : list event → list row :=
  omap (λ e, match e with Log WARNING r => Some r | _ => None end).

(** ** Sample runs

    A service directory with the three commands of the repository, a
    model file, and a started [cmd.exe] whose first child is Revit. *)

Definition sample_args (cmd : string) (t : Z) : Args := {|
  command := cmd;
  project_code := "123_N";
  model_path := "C:/models/";
  model_file_name := "a.rvt";
  rvt_version_path := "C:\Revit\Revit.exe";
  rvt_version := "2017";
  timeout := t;
  html_path := None
|}.

Definition sample_register (name key value : string) : gmap string string :=
  <["name" := name]> (<[key := value]> ∅).

Definition sample_commands : list dir_entry := [
  {| entry_name := "audit";
     register := Some (sample_register "audit" "rvt_journal_writer" "audit") |};
  {| entry_name := "qc";
     register := Some (sample_register "qc" "get_rps_button" "qc_model") |};
  {| entry_name := "warnings";
     register := Some (sample_register "warnings" "rvt_journal_writer"
                         "warnings_export_command") |}
].

(** A plugin whose journal writer kind is none of the two the script
    knows. *)
Definition dwf_commands : list dir_entry := [
  {| entry_name := "dwf";
     register := Some (sample_register "dwf" "rvt_journal_writer"
                         "dwf_export") |}
].

Definition sample_files : list string := [
  "C:/models/a.rvt";
  "C:\svc\commands/audit/__init__.py";
  "C:\svc\commands/qc/__init__.py";
  "C:\svc\commands/warnings/__init__.py";
  "C:\svc\commands/dwf/__init__.py"
].

Definition file_in (files : list string) (p : string) : bool :=
  bool_decide (p ∈ files).

Definition cmd_exe : proc := {| pid := 4100; pname := "cmd.exe" |}.
Definition revit_exe : proc := {| pid := 4200; pname := "Revit.exe" |}.

Definition sample_world (cmd : string) (t : Z) (entries : list dir_entry)
    (files : list string) (kids : list proc) (polls : nat → option Z)
    : World := {|
  args := sample_args cmd t;
  root_dir := "C:\svc";
  path_exists := file_in files;
  scandir_commands := entries;
  current_proc_hash := 77;
  get_rps_button := λ _ button, Some ("rps " +:+ button);
  warnings_export_command := λ dir project, "export " +:+ project;
  get_rvt_file_version := Some (Some "2017");
  installed_rvt_detection := λ _, Some "C:\Revit\Revit.exe";
  run_proc := cmd_exe;
  children := λ _, kids;
  poll_at := polls
|}.

Definition never_exits : nat → option Z := λ _, None.

(** The started process reports [code] from pass [t] on. *)
Definition exits_at (t : nat) (code : Z) : nat → option Z :=
  λ i, if decide (i < t)%nat then None else Some code.

Definition hanging (cmd : string) (t : Z) : World :=
  sample_world cmd t sample_commands sample_files [revit_exe] never_exits.

Definition unknown_command : World :=
  sample_world "unknown_cmd" 5 sample_commands sample_files [revit_exe]
    never_exits.

Definition unknown_command_no_model : World :=
  sample_world "unknown_cmd" 5 sample_commands [] [revit_exe] never_exits.

Definition dwf_run : World :=
  sample_world "dwf" 5 dwf_commands sample_files [revit_exe] never_exits.

Definition childless : World :=
  sample_world "audit" 5 sample_commands sample_files [] never_exits.

Definition warnings_done : World :=
  sample_world "warnings" 5 sample_commands sample_files [revit_exe]
    (exits_at 1 0).

Definition audit_failed : World :=
  sample_world "audit" 5 sample_commands sample_files [revit_exe]
    (exits_at 2 1).

(** ** Version and install path detection

    [get_rvt_file_version] and [installed_rvt_detection] read text with
    three regular expressions.  Text is a list of characters with codes
    0 to 255; on these Python's [\d] is the ten digits and [\s] (and
    [str.strip]) is the set below. *)

Definition py_isdigit (c : ascii) : bool :=
  (48 <=? nat_of_ascii c)%nat && (nat_of_ascii c <=? 57)%nat.

Definition py_isspace (c : ascii) : bool :=
  bool_decide
    (nat_of_ascii c ∈ [9; 10; 11; 12; 13; 28; 29; 30; 31; 32; 133; 160]%nat).

Definition is_char (c : ascii) : ascii → bool := λ x, bool_decide (x = c).
Definition space_char : ascii := Ascii.ascii_of_nat 32.
Definition newline_char : ascii := Ascii.ascii_of_nat 10.

(** A pattern that is a sequence of character classes: the text it
    matches at the start of [s], if any. *)
Fixpoint match_classes (cls : list (ascii → bool)) (s : list ascii)
    : option (list ascii) :=
  match cls with
  | [] => Some []
  | p :: cls' =>
      match s with
      | c :: s' => if p c then (c ::.) <$> match_classes cls' s' else None
      | [] => None
      end
  end.

(** [re.search(pattern, s)[0]] for such a pattern: the match at the
    leftmost position that has one. *)
Fixpoint search_classes (cls : list (ascii → bool)) (s : list ascii)
    : option (list ascii) :=
  match match_classes cls s with
  | Some m => Some m
  | None =>
      match s with
      | _ :: s' => search_classes cls s'
      | [] => None
      end
  end.

(** [r" \d{4} "] and [r"\d{4}"]. *)
Definition spaced_year_pattern : list (ascii → bool) :=
  [is_char space_char; py_isdigit; py_isdigit; py_isdigit; py_isdigit;
   is_char space_char].
Definition year_pattern : list (ascii → bool) :=
  [py_isdigit; py_isdigit; py_isdigit; py_isdigit].

Fixpoint lstrip (s : list ascii) : list ascii :=
  match s with
  | c :: s' => if py_isspace c then lstrip s' else s
  | [] => []
  end.

(** [str.strip()]. *)
Definition strip (s : list ascii) : list ascii :=
  reverse (lstrip (reverse (lstrip s))).

(** Regular expressions with choice and repetition, matched by
    derivatives. *)
Inductive regex :=
| Void
| Eps
| Cls (p : ascii → bool)
| Cat (r1 r2 : regex)
| Alt (r1 r2 : regex)
| Star (r : regex).

Fixpoint nullable (r : regex) : bool :=
  match r with
  | Void => false
  | Eps => true
  | Cls _ => false
  | Cat r1 r2 => nullable r1 && nullable r2
  | Alt r1 r2 => nullable r1 || nullable r2
  | Star _ => true
  end.

Fixpoint deriv (c : ascii) (r : regex) : regex :=
  match r with
  | Void => Void
  | Eps => Void
  | Cls p => if p c then Eps else Void
  | Cat r1 r2 =>
      if nullable r1 then Alt (Cat (deriv c r1) r2) (deriv c r2)
      else Cat (deriv c r1) r2
  | Alt r1 r2 => Alt (deriv c r1) (deriv c r2)
  | Star r' => Cat (deriv c r') (Star r')
  end.

(** The whole of [s] matches [r]. *)
Fixpoint full_match (r : regex) (s : list ascii) : bool :=
  match s with
  | [] => nullable r
  | c :: s' => full_match (deriv c r) s'
  end.

(** The texts a regular expression stands for. *)
Inductive lang : regex → list ascii → Prop :=
| lang_eps : lang Eps []
| lang_cls p c : p c = true → lang (Cls p) [c]
| lang_cat r1 r2 s1 s2 : lang r1 s1 → lang r2 s2 → lang (Cat r1 r2) (s1 ++ s2)
| lang_alt_l r1 r2 s : lang r1 s → lang (Alt r1 r2) s
| lang_alt_r r1 r2 s : lang r2 s → lang (Alt r1 r2) s
| lang_star_nil r : lang (Star r) []
| lang_star_app r s1 s2 :
    lang r s1 → lang (Star r) s2 → lang (Star r) (s1 ++ s2).

Definition Opt (r : regex) : regex := Alt r Eps.

Fixpoint Lit (s : list ascii) : regex :=
  match s with
  | [] => Eps
  | c :: s' => Cat (Cls (is_char c)) (Lit s')
  end.

(** [r"Autodesk Revit ?(\S* )?\d{4}$"] up to the [$]. *)
Definition adsk_pattern : regex :=
  Cat (Lit (String.list_ascii_of_string "Autodesk Revit"))
 (Cat (Opt (Cls (is_char space_char)))
 (Cat (Opt (Cat (Star (Cls (λ c, negb (py_isspace c))))
                (Cls (is_char space_char))))
 (Cat (Cls py_isdigit) (Cat (Cls py_isdigit)
 (Cat (Cls py_isdigit) (Cls py_isdigit)))))).

(** [re.match] of a pattern that ends in [$]: a match from the start that
    ends at the end of the text or before a newline that ends it. *)
Definition match_to_end (r : regex) (s : list ascii) : bool :=
  full_match (Cat r (Opt (Cls (is_char newline_char)))) s.

(** The model file as [olefile] shows it: whether it is an OLE file, and
    the decoded text of its [BasicFileInfo] stream ([None] when the file
    has no such stream). *)
Record rvt_file := {
  is_ole_file : bool;
  basic_file_info : option string
}.

(** One subkey of the registry's [Uninstall] key, in [EnumKey] order: its
    name and its [InstallLocation] value ([None] when the subkey has no
    such value, so that [QueryValueEx] raises).  Subkey names are unique
    under a key. *)
Record uninstall_key := {
  key_name : string;
  install_location : option string
}.

Module Autodetect.

(** How [get_rvt_file_version] ends. *)
Inductive file_version :=
| NotOleFile                 (* prints that the file is no ole file; None *)
| StreamMissing              (* [openstream] raises *)
| NoVersionFound             (* [re.search] gave None: TypeError on [[0]] *)
| FileVersion (v : string).  (* returns [v] *)

Definition get_rvt_file_version (f : rvt_file) : file_version :=
  if is_ole_file f then
    match basic_file_info f with
    | None => StreamMissing
    | Some file_info =>
        match search_classes spaced_year_pattern
                (String.list_ascii_of_string file_info) with
        | Some m => FileVersion (String.string_of_list_ascii (strip m))
        | None => NoVersionFound
        end
    end
  else NotOleFile.

(** How [installed_rvt_detection] fails. *)
Inductive failure :=
| TypeError          (* [re.search(...)[0]] on no match *)
| OSError            (* [QueryValueEx] on a missing value *)
| VersionKeyError.   (* [rvt_install_paths[search_version]] *)

(** [str(search_version)]. *)
Definition str (v : option string) : string :=
  match v with Some s => s | None => "None" end.

(** The first loop: the subkeys whose name the Autodesk pattern accepts. *)
Definition accepted (k : uninstall_key) : bool :=
  match_to_end adsk_pattern (String.list_ascii_of_string (key_name k)).

Definition rvt_reg_keys (keys : list uninstall_key) : list uninstall_key :=
  filter (λ k, accepted k = true) keys.

(** The second loop, threading [rvt_install_paths]. *)
Fixpoint install_paths (reg_keys : list uninstall_key)
    (rvt_install_paths : gmap string string)
    : failure + gmap string string :=
  match reg_keys with
  | [] => inr rvt_install_paths
  | rk :: rest =>
      match search_classes year_pattern
              (String.list_ascii_of_string (key_name rk)) with
      | None => inl TypeError
      | Some m =>
          let rvt_install_version := String.string_of_list_ascii m in
          match install_location rk with
          | None => inl OSError
          | Some location =>
              let exe_location := location +:+ "Revit.exe" in
              install_paths rest
                (<[rvt_install_version := exe_location]> rvt_install_paths)
          end
      end
  end.

Definition installed_rvt_detection (keys : list uninstall_key)
    (search_version : option string) : failure + string :=
  match install_paths (rvt_reg_keys keys) ∅ with
  | inl e => inl e
  | inr rvt_install_paths =>
      match rvt_install_paths !! str search_version with
      | Some path => inr path
      | None => inl VersionKeyError
      end
  end.

End Autodetect.

(** The two functions as the script body calls them. *)
Definition version_call (v : Autodetect.file_version)
    : option (option string) :=
  match v with
  | Autodetect.NotOleFile => Some None
  | Autodetect.FileVersion v => Some (Some v)
  | Autodetect.StreamMissing | Autodetect.NoVersionFound => None
  end.

Definition install_call (r : Autodetect.failure + string) : option string :=
  match r with inr path => Some path | inl _ => None end.

(** The world [w] with the model file [f] and the registry [keys] behind
    the two detection functions. *)
Definition with_autodetect (w : World) (f : rvt_file)
    (keys : list uninstall_key) : World := {|
  args := args w;
  root_dir := root_dir w;
  path_exists := path_exists w;
  scandir_commands := scandir_commands w;
  current_proc_hash := current_proc_hash w;
  get_rps_button := get_rps_button w;
  warnings_export_command := warnings_export_command w;
  get_rvt_file_version := version_call (Autodetect.get_rvt_file_version f);
  installed_rvt_detection :=
    λ v, install_call (Autodetect.installed_rvt_detection keys v);
  run_proc := run_proc w;
  children := children w;
  poll_at := poll_at w
|}.

(** The job as the started program sees it: the two artifacts and the
    process start, in the order they happen. *)
Definition job_events : list event → list event :=
  omap (λ e, match e with
             | WriteJournal _ _ _ _ _ | WriteAddin _ _ _ | Popen _ _ _ => Some e
             | _ => None
             end).

(** A text of four decimal digits. *)
Definition is_year (v : string) : Prop :=
  length (String.list_ascii_of_string v) = 4%nat ∧
  Forall (λ c, py_isdigit c = true) (String.list_ascii_of_string v).

(** The version the second loop files a subkey under: the first run of
    four digits in its name. *)
Definition key_version (k : uninstall_key) : option string :=
  String.string_of_list_ascii <$>
  search_classes year_pattern (String.list_ascii_of_string (key_name k)).

Definition space_string : string := String space_char EmptyString.
Definition newline_string : string := String newline_char EmptyString.

(** A model file that is no OLE file, one of release 2017, and a registry
    with two Revit releases among other software. *)
Definition text_file : rvt_file :=
  {| is_ole_file := false; basic_file_info := None |}.

Definition model_2017 : rvt_file :=
  {| is_ole_file := true;
     basic_file_info :=
       Some "Worksharing: Not enabled Format: 2017 Build: 20161006_0315(x64)" |}.

Definition sample_registry : list uninstall_key := [
  {| key_name := "7-Zip"; install_location := None |};
  {| key_name := "Autodesk Revit 2017";
     install_location := Some "C:/Autodesk/Revit 2017/" |};
  {| key_name := "Autodesk Revit Architecture 2015";
     install_location := Some "C:/Autodesk/Revit Architecture 2015/" |}
].

(** ** The monad *)

Lemma result_bind {A B} (m : M A) (f : A → M B) :
  result (m ≫= f) =
  match result m with
  | Ret x => result (f x)
  | SystemExit => SystemExit
  | Raised e => Raised e
  end.
Proof. unfold mbind, M_bind. destruct (result m); reflexivity. Qed.

Lemma trace_bind {A B} (m : M A) (f : A → M B) :
  trace (m ≫= f) =
  trace m ++ match result m with Ret x => trace (f x) | _ => [] end.
Proof.
  unfold mbind, M_bind.
  destruct (result m); cbn; rewrite ?app_nil_r; reflexivity.
Qed.

Lemma omap_abort_messages {B} (f : event → option B) (t : list event) :
  f (Print MsgInitNotFound) = None →
  (∀ c, f (Print (MsgCommandDirNotFound c)) = None) →
  Forall is_abort_message t → omap f t = [].
Proof.
  intros Hi Hc. induction 1 as [|e t He _ IH]; [reflexivity|].
  destruct e as [[]| | | | | | | | | | |]; try contradiction;
    cbn; rewrite ?Hi, ?Hc; exact IH.
Qed.

(** ** command_detection *)

Section DetectionFacts.
Variable w : World.
Variables (search_command cmds_dir rvt_ver root project : string).

Local Abbreviation read_register' :=
  (read_register w rvt_ver root project).
Local Abbreviation scan' :=
  (scan w search_command cmds_dir rvt_ver root project).
Local Abbreviation command_detection' :=
  (command_detection w search_command cmds_dir rvt_ver root project).

Lemma read_register_trace name reg d : trace (read_register' name reg d) = [].
Proof.
  unfold read_register, getitem, call.
  repeat (rewrite ?trace_bind, ?result_bind; cbn;
          repeat case_match; cbn; try reflexivity).
Qed.

(** A key of the dict after a module is read was there before, or is the
    directory name, which the module's [register] names too. *)
Lemma read_register_keys name reg d d' k :
  result (read_register' name reg d) = Ret d' →
  is_Some (d' !! k) →
  is_Some (d !! k) ∨ (k = name ∧ reg !! "name" = Some name).
Proof.
  unfold read_register, getitem, call.
  destruct (reg !! "name") as [n|] eqn:Hn; cbn; [|discriminate].
  case_bool_decide as Hname; cbn; [subst n|by intros [= ->]; left].
  destruct (reg !! "get_rps_button") as [b|]; cbn;
    [destruct (get_rps_button w rvt_ver b); cbn; [|discriminate]|];
    (destruct (reg !! "rvt_journal_writer") as [kind|]; cbn;
     [repeat case_bool_decide|]; cbn; intros [= <-];
     rewrite ?lookup_insert; repeat case_decide; subst; auto).
Qed.

Lemma scan_no_match entries d f :
  Forall (λ e, entry_name e ≠ search_command) entries →
  scan' entries d f = mret (d, f).
Proof.
  induction 1 as [|e l He _ IH]; [reflexivity|].
  cbn. rewrite bool_decide_eq_false_2 by congruence. exact IH.
Qed.

Lemma scan_trace entries d f : Forall is_abort_message (trace (scan' entries d f)).
Proof.
  revert d f. induction entries as [|e l IH]; intros d f; [constructor|].
  cbn [scan]. case_bool_decide; [|apply IH].
  destruct (path_exists w _).
  - unfold skip. cbn. destruct (register e) as [reg|]; cbn; [|apply IH].
    rewrite trace_bind, read_register_trace. cbn.
    destruct (result (read_register' _ _ _)); [apply IH|constructor..].
  - cbn. repeat constructor.
Qed.

Lemma scan_keys all entries d f d' f' :
  entries ⊆ all →
  resolved search_command all d →
  result (scan' entries d f) = Ret (d', f') →
  resolved search_command all d'.
Proof.
  intros Hsub. revert d f Hsub.
  induction entries as [|e l IH]; intros d f Hsub Hd.
  - cbn. intros [= <- <-]. exact Hd.
  - assert (e ∈ all) as He by (apply Hsub; left).
    assert (l ⊆ all) as Hl by (intros x Hx; apply Hsub; by right).
    cbn [scan]. case_bool_decide as Hname; [|by apply IH].
    destruct (path_exists w _); [|cbn; discriminate].
    unfold skip. cbn.
    destruct (register e) as [reg|] eqn:Hreg; cbn; [|by apply IH].
    rewrite result_bind.
    destruct (result (read_register' _ _ _)) as [d1| |] eqn:Hr;
      [|discriminate..].
    apply IH; [exact Hl|]. intros k Hk.
    destruct (read_register_keys _ _ _ _ _ Hr Hk) as [Hold|[-> Hn]];
      [by apply Hd|].
    split; [done|]. exists e, reg. done.
Qed.

Lemma command_detection_trace : Forall is_abort_message (trace command_detection').
Proof.
  unfold command_detection. rewrite trace_bind.
  apply Forall_app. split; [apply scan_trace|].
  destruct (result (scan' _ _ _)) as [[d [|]]| |]; cbn; repeat constructor.
Qed.

Lemma command_detection_no_match :
  Forall (λ e, entry_name e ≠ search_command) (scandir_commands w) →
  command_detection' =
  Run SystemExit [Print (MsgCommandDirNotFound search_command)].
Proof.
  intros H. unfold command_detection. rewrite scan_no_match by exact H.
  reflexivity.
Qed.

Lemma command_detection_keys d :
  result command_detection' = Ret d →
  resolved search_command (scandir_commands w) d.
Proof.
  unfold command_detection. rewrite result_bind.
  destruct (result (scan' _ _ _)) as [[d0 f0]| |] eqn:Hs; [|discriminate..].
  destruct f0; cbn; [|discriminate]. intros [= ->].
  eapply (scan_keys (scandir_commands w)); [done| |exact Hs].
  intros k' Hk'. rewrite lookup_empty in Hk'. by destruct Hk'.
Qed.
End DetectionFacts.

(** ** The script before the model check *)

Section ScriptFacts.
Variable w : World.

Local Abbreviation a := (args w).

Ltac run_startup :=
  unfold startup; destruct (path_exists _ (job_logging _));
  unfold choose_html_path, get_paths_dict, html_of, skip, print, tell;
  cbn; repeat (case_match; cbn); reflexivity.

Lemma startup_result : result (startup w) = Ret (html_of w).
Proof.
  unfold startup. rewrite !result_bind. cbn -[choose_html_path].
  unfold html_of.
  assert (∃ h, result (choose_html_path w) = Ret h) as [h Hh].
  { unfold choose_html_path. repeat (case_match; cbn); eauto. }
  rewrite Hh. cbn. by destruct (path_exists w _).
Qed.

Lemma startup_polled : polled (trace (startup w)) = [].
Proof. run_startup. Qed.

Lemma startup_killed : killed (trace (startup w)) = [].
Proof. run_startup. Qed.

Lemma startup_hooks : hooks (trace (startup w)) = [].
Proof. run_startup. Qed.

Lemma startup_journal_writes : journal_writes (trace (startup w)) = [].
Proof. run_startup. Qed.

Lemma startup_launched : launched (trace (startup w)) = [].
Proof. run_startup. Qed.

Lemma startup_logged :
  logged (trace (startup w)) =
  [(INFO, TaskStarted (project_code a) (current_proc_hash w) a)].
Proof. run_startup. Qed.

Lemma startup_file_io :
  file_io (trace (startup w)) =
  (if path_exists w (job_logging w) then []
   else [WriteLogHeader (job_logging w)]) ++
  [Log INFO (TaskStarted (project_code a) (current_proc_hash w) a)].
Proof. run_startup. Qed.

Lemma startup_not_found : not_found_reports (trace (startup w)) = [].
Proof. run_startup. Qed.
End ScriptFacts.

(** ** The timeout loop *)

Section LoopFacts.
Variable w : World.
Variables (child_proc : proc) (child_pid : Z) (html : option string).

Local Abbreviation a := (args w).
Local Abbreviation loop := (poll_loop w child_proc child_pid html).

(** The loop never raises and never exits the script. *)
Lemma poll_loop_result secs : result (loop secs) = Ret tt.
Proof.
  induction secs as [|sec rest IH]; [reflexivity|].
  cbn [poll_loop]. unfold tell, print, skip. cbn.
  destruct (bool_decide (poll_at w sec = _)); cbn;
    [by destruct (bool_decide _)|].
  destruct (bool_decide _); cbn; [|exact IH].
  destruct (falsy_int _); cbn; [|exact IH].
  by destruct (bool_decide _).
Qed.

(** A pass that neither sees exit code 0 nor is the last one. *)
Lemma poll_loop_wait sec rest :
  poll_at w sec ≠ Some 0 →
  timeout a - Z.of_nat sec - 1 ≠ 0 →
  trace (loop (sec :: rest)) = tick_events w sec ++ trace (loop rest).
Proof.
  intros Hp Ht. cbn [poll_loop]. unfold tell, print, skip. cbn.
  rewrite !bool_decide_eq_false_2 by assumption. reflexivity.
Qed.

Lemma poll_loop_success sec rest :
  poll_at w sec = Some 0 →
  trace (loop (sec :: rest)) = tick_events w sec ++ success_events w html.
Proof.
  intros Hp. cbn [poll_loop]. unfold tell, print, skip, success_events. cbn.
  rewrite bool_decide_eq_true_2 by assumption.
  case_bool_decide; reflexivity.
Qed.

Lemma poll_loop_deadline sec :
  poll_at w sec ≠ Some 0 →
  timeout a - Z.of_nat sec - 1 = 0 →
  trace (loop [sec]) =
  tick_events w sec ++ deadline_events w child_proc child_pid (poll_at w sec).
Proof.
  intros Hp Ht. cbn [poll_loop]. unfold tell, print, skip, deadline_events. cbn.
  rewrite bool_decide_eq_false_2 by assumption.
  rewrite bool_decide_eq_true_2 by assumption.
  destruct (falsy_int _); cbn; [|reflexivity].
  destruct (bool_decide _); reflexivity.
Qed.

Lemma poll_loop_waiting n : ∀ s rest,
  (∀ i, (s ≤ i < s + n)%nat →
        poll_at w i ≠ Some 0 ∧ timeout a - Z.of_nat i - 1 ≠ 0) →
  trace (loop (seq s n ++ rest)) =
  flat_map (tick_events w) (seq s n) ++ trace (loop rest).
Proof.
  induction n as [|n IH]; intros s rest H; [reflexivity|].
  cbn [seq app flat_map].
  destruct (H s) as [Hp Ht]; [lia|].
  rewrite poll_loop_wait by assumption.
  rewrite IH by (intros i Hi; apply H; lia).
  by rewrite <- app_assoc.
Qed.

(** The process never reports exit code 0: every pass polls, and the last
    pass takes the deadline branch. *)
Lemma poll_loop_expires n :
  timeout a = Z.of_nat (S n) →
  (∀ i, (i < S n)%nat → poll_at w i ≠ Some 0) →
  trace (loop (range (timeout a))) =
  flat_map (tick_events w) (seq 0 (S n)) ++
  deadline_events w child_proc child_pid (poll_at w n).
Proof.
  intros Ht Hp. unfold range. rewrite Ht, Nat2Z.id.
  replace (S n) with (n + 1)%nat by lia.
  rewrite seq_app, flat_map_app. cbn [seq flat_map].
  rewrite poll_loop_waiting.
  - rewrite poll_loop_deadline; [|apply Hp; lia|lia].
    by rewrite <- app_assoc, app_nil_r.
  - intros i Hi. split; [apply Hp; lia|lia].
Qed.

(** The process reports exit code 0 for the first time at pass [t]: the
    loop ends there. *)
Lemma poll_loop_completes t :
  Z.of_nat t < timeout a →
  (∀ i, (i < t)%nat → poll_at w i ≠ Some 0) →
  poll_at w t = Some 0 →
  trace (loop (range (timeout a))) =
  flat_map (tick_events w) (seq 0 (S t)) ++ success_events w html.
Proof.
  intros Ht Hp Hz. unfold range.
  rewrite seq_S, flat_map_app. cbn [flat_map].
  replace (Z.to_nat (timeout a)) with (t + S (Z.to_nat (timeout a) - S t))%nat
    by lia.
  rewrite seq_app. cbn [seq].
  rewrite poll_loop_waiting by (intros i Hi; split; [apply Hp; lia|lia]).
  rewrite poll_loop_success by exact Hz.
  by rewrite <- app_assoc, app_nil_r.
Qed.

(** With a timeout of zero or less the loop body never runs. *)
Lemma poll_loop_empty :
  timeout a ≤ 0 → loop (range (timeout a)) = skip.
Proof.
  intros Ht. unfold range. by replace (Z.to_nat (timeout a)) with 0%nat by lia.
Qed.

(** Whatever the process does, the loop polls the started process only and
    kills the first child only, at most [timeout] polls and one kill. *)
Lemma poll_loop_targets secs :
  Forall (eq (run_proc w)) (polled (trace (loop secs))) ∧
  Forall (eq child_proc) (killed (trace (loop secs))) ∧
  (length (polled (trace (loop secs))) ≤ length secs)%nat.
Proof.
  induction secs as [|sec rest (IHp & IHk & IHn)].
  { cbn. repeat constructor. }
  cbn [poll_loop]. unfold tell, print, skip. cbn.
  destruct (bool_decide (poll_at w sec = _)); cbn.
  { destruct (bool_decide _); cbn;
      (split; [by repeat constructor|split; [constructor|lia]]). }
  destruct (bool_decide _); cbn;
    [destruct (falsy_int _); cbn; [destruct (bool_decide _); cbn|]|];
    (split; [by constructor|split; [by repeat constructor|cbn in *; lia]]).
Qed.

Lemma ticks_polled l :
  polled (flat_map (tick_events w) l) = replicate (length l) (run_proc w).
Proof. induction l as [|x l IH]; [reflexivity|]. cbn. by rewrite IH. Qed.

Lemma ticks_silent {B} (f : event → option B) l :
  f Sleep = None → (∀ m, f (Print (MsgSeconds m)) = None) →
  f (Poll (run_proc w)) = None →
  omap f (flat_map (tick_events w) l) = [].
Proof.
  intros Hs Hm Hp. induction l as [|x l IH]; [reflexivity|].
  cbn. by rewrite Hs, Hm, Hp.
Qed.
End LoopFacts.

(** ** Launch, supervision and the whole script *)

Section RunFacts.
Variable w : World.

Local Abbreviation a := (args w).

Ltac run_launch :=
  unfold launch, getitem, first, call, raise, print, tell;
  repeat (case_match; cbn); try reflexivity.

Lemma launch_polled d : polled (trace (launch w d)) = [].
Proof. run_launch. Qed.

Lemma launch_killed d : killed (trace (launch w d)) = [].
Proof. run_launch. Qed.

Lemma launch_hooks d : hooks (trace (launch w d)) = [].
Proof. run_launch. Qed.

Lemma launch_logged d : logged (trace (launch w d)) = [].
Proof. run_launch. Qed.

Lemma launch_not_found d : not_found_reports (trace (launch w d)) = [].
Proof. run_launch. Qed.

(** The handle that gets killed is the head of the first [children()]
    call. *)
Lemma launch_child d cp cpid :
  result (launch w d) = Ret (cp, cpid) → head (children w 0) = Some cp.
Proof.
  unfold launch, getitem, first, call, raise, print, tell.
  repeat (case_match; cbn); try discriminate; by intros [= -> _].
Qed.

Lemma launch_started d cp cpid :
  result (launch w d) = Ret (cp, cpid) →
  launched (trace (launch w d)) =
    [Popen (rvt_version_path a) (journal_file_path w) (root_dir w)] ∧
  journal_writes (trace (launch w d)) =
    [journal_file_path w; addin_file_path w].
Proof.
  unfold launch, getitem, first, call, raise, print, tell.
  repeat (case_match; cbn); try discriminate; done.
Qed.

Lemma launch_key_error d :
  d !! command a = None → launch w d = raise KeyError.
Proof. intros H. unfold launch, getitem. by rewrite H. Qed.

Lemma launch_index_error d frag :
  d !! command a = Some frag → children w 0 = [] →
  result (launch w d) = Raised IndexError ∧
  launched (trace (launch w d)) =
    [Popen (rvt_version_path a) (journal_file_path w) (root_dir w)].
Proof.
  intros Hd Hc. unfold launch, getitem, first. rewrite Hd, Hc. done.
Qed.

Lemma post_loop_result html : result (post_loop w html) = Ret tt.
Proof. unfold post_loop. by destruct (bool_decide _). Qed.

Lemma finish_result : result (finish w) = Ret tt.
Proof. unfold finish. cbn. by destruct (_ || _). Qed.

Lemma supervise_result html d :
  result (supervise w html d) =
  match result (launch w d) with
  | Ret _ => Ret tt
  | SystemExit => SystemExit
  | Raised e => Raised e
  end.
Proof.
  unfold supervise. rewrite result_bind.
  destruct (result (launch w d)) as [[cp cpid]| |]; [|done..].
  by rewrite result_bind, poll_loop_result, post_loop_result.
Qed.

Lemma supervise_trace html d :
  trace (supervise w html d) =
  trace (launch w d) ++
  match result (launch w d) with
  | Ret (cp, cpid) =>
      trace (poll_loop w cp cpid html (range (timeout a))) ++
      trace (post_loop w html)
  | _ => []
  end.
Proof.
  unfold supervise. rewrite trace_bind.
  destruct (result (launch w d)) as [[cp cpid]| |]; [|done..].
  by rewrite trace_bind, poll_loop_result.
Qed.

Lemma main_result :
  result (main w) =
  match result (detect w) with
  | Ret d =>
      match result (model_branch w (html_of w) d) with
      | Ret _ => Ret tt
      | SystemExit => SystemExit
      | Raised e => Raised e
      end
  | SystemExit => SystemExit
  | Raised e => Raised e
  end.
Proof.
  unfold main. rewrite result_bind, startup_result, result_bind.
  destruct (result (detect w)); [|done..].
  rewrite result_bind, finish_result. reflexivity.
Qed.

Lemma main_trace :
  trace (main w) =
  trace (startup w) ++ trace (detect w) ++
  match result (detect w) with
  | Ret d =>
      trace (model_branch w (html_of w) d) ++
      match result (model_branch w (html_of w) d) with
      | Ret _ => trace (finish w)
      | _ => []
      end
  | _ => []
  end.
Proof.
  unfold main. rewrite trace_bind, startup_result, trace_bind.
  destruct (result (detect w)); [|done..].
  by rewrite trace_bind.
Qed.

Lemma main_omap {B} (f : event → option B) :
  omap f (trace (main w)) =
  omap f (trace (startup w)) ++ omap f (trace (detect w)) ++
  match result (detect w) with
  | Ret d =>
      omap f (trace (model_branch w (html_of w) d)) ++
      match result (model_branch w (html_of w) d) with
      | Ret _ => omap f (trace (finish w))
      | _ => []
      end
  | _ => []
  end.
Proof.
  rewrite main_trace, !omap_app.
  destruct (result (detect w)); [|done..].
  rewrite omap_app. by destruct (result (model_branch _ _ _)).
Qed.

Lemma supervise_omap {B} (f : event → option B) html d :
  omap f (trace (supervise w html d)) =
  omap f (trace (launch w d)) ++
  match result (launch w d) with
  | Ret (cp, cpid) =>
      omap f (trace (poll_loop w cp cpid html (range (timeout a)))) ++
      omap f (trace (post_loop w html))
  | _ => []
  end.
Proof.
  rewrite supervise_trace, omap_app.
  destruct (result (launch w d)) as [[cp cpid]| |]; [|done..].
  by rewrite omap_app.
Qed.

Lemma detect_silent {B} (f : event → option B) :
  f (Print MsgInitNotFound) = None →
  (∀ c, f (Print (MsgCommandDirNotFound c)) = None) →
  omap f (trace (detect w)) = [].
Proof.
  intros Hi Hc. apply omap_abort_messages; [done..|].
  apply command_detection_trace.
Qed.

Lemma finish_silent {B} (f : event → option B) :
  f (Print MsgEnded) = None → f (Print MsgDeprecated) = None →
  omap f (trace (finish w)) = [].
Proof.
  intros He Hd. unfold finish, print, tell, skip. cbn.
  destruct (_ || _); cbn; by rewrite He, ?Hd.
Qed.
End RunFacts.

(** ** Command resolution *)

Section Unregistered.
Variable w : World.
Hypothesis unregistered :
  Forall (λ e, entry_name e ≠ command (args w)) (scandir_commands w).

Lemma detect_unregistered :
  detect w = Run SystemExit [Print (MsgCommandDirNotFound (command (args w)))].
Proof. by apply command_detection_no_match. Qed.

(** The script stops at resolution: all it has done is [startup] and the
    abort message. *)
Lemma main_unregistered {B} (f : event → option B) :
  (∀ c, f (Print (MsgCommandDirNotFound c)) = None) →
  result (main w) = SystemExit ∧
  omap f (trace (main w)) = omap f (trace (startup w)).
Proof.
  intros Hf. rewrite main_result, main_omap, detect_unregistered.
  cbn -[startup]. by rewrite Hf, app_nil_r.
Qed.
End Unregistered.

(** C9 (as stated, refuted): with the unregistered command [unknown_cmd]
    the script has already written the log header and the task_started
    row when resolution aborts. *)
Lemma unknown_command_touches_log :
  Forall (λ e, entry_name e ≠ command (args unknown_command))
    (scandir_commands unknown_command) ∧
  result (main unknown_command) = SystemExit ∧
  file_io (trace (main unknown_command)) ≠ [].
Proof.
  split; [|split].
  - repeat constructor; discriminate.
  - vm_compute. reflexivity.
  - vm_compute. discriminate.
Qed.

(** C9 (amended): when no directory under the commands root carries the
    requested name, the script exits at resolution; by then it has seeded
    the log file (if absent) and appended the task_started row, and it
    writes nothing else: no journal, no add-in file, and no process is
    started. *)
Theorem unregistered_command_writes_only_log (w : World) :
  Forall (λ e, entry_name e ≠ command (args w)) (scandir_commands w) →
  result (main w) = SystemExit ∧
  file_io (trace (main w)) =
    (if path_exists w (job_logging w) then []
     else [WriteLogHeader (job_logging w)]) ++
    [Log INFO (TaskStarted (project_code (args w)) (current_proc_hash w)
                 (args w))] ∧
  journal_writes (trace (main w)) = [] ∧
  launched (trace (main w)) = [].
Proof.
  intros H. unfold file_io, journal_writes, launched.
  repeat split.
  - by apply (main_unregistered w H (λ _, @None unit)).
  - rewrite (proj2 (main_unregistered w H _ (λ _, eq_refl))).
    apply startup_file_io.
  - rewrite (proj2 (main_unregistered w H _ (λ _, eq_refl))).
    apply startup_journal_writes.
  - rewrite (proj2 (main_unregistered w H _ (λ _, eq_refl))).
    apply startup_launched.
Qed.

Lemma unregistered_command_writes_only_log_witness :
  Forall (λ e, entry_name e ≠ "unknown_cmd") sample_commands ∧
  file_io (trace (main unknown_command)) =
  [WriteLogHeader "C:\svc\logs\job_logging.csv";
   Log INFO (TaskStarted "123_N" 77 (sample_args "unknown_cmd" 5))].
Proof.
  assert (Forall (λ e, entry_name e ≠ "unknown_cmd") sample_commands) as H
    by (repeat constructor; discriminate).
  split; [exact H|].
  exact (proj1 (proj2 (unregistered_command_writes_only_log unknown_command H))).
Defined.

(** C2: a requested name no directory carries makes the registry exit
    with the command-not-found message, and the script with it, before a
    journal or add-in file is written or a process started; and whenever
    resolution returns, every entry of the returned dict is keyed by the
    requested name, which is the name of a scanned directory and the
    [name] of its register. *)
Theorem resolve_not_found_or_named (w : World) :
  (Forall (λ e, entry_name e ≠ command (args w)) (scandir_commands w) →
   detect w =
     Run SystemExit [Print (MsgCommandDirNotFound (command (args w)))] ∧
   result (main w) = SystemExit ∧
   journal_writes (trace (main w)) = [] ∧
   launched (trace (main w)) = []) ∧
  (∀ d, result (detect w) = Ret d →
        resolved (command (args w)) (scandir_commands w) d).
Proof.
  split.
  - intros H. unfold journal_writes, launched. repeat split.
    + by apply detect_unregistered.
    + by apply (main_unregistered w H (λ _, @None unit)).
    + rewrite (proj2 (main_unregistered w H _ (λ _, eq_refl))).
      apply startup_journal_writes.
    + rewrite (proj2 (main_unregistered w H _ (λ _, eq_refl))).
      apply startup_launched.
  - apply command_detection_keys.
Qed.

Lemma resolve_not_found_or_named_witness :
  result (main unknown_command) = SystemExit ∧
  resolved "warnings" sample_commands {[ "warnings" := "export 123_N" ]}.
Proof.
  split.
  - apply (proj1 (resolve_not_found_or_named unknown_command)).
    repeat constructor; discriminate.
  - apply (proj2 (resolve_not_found_or_named (hanging "warnings" 5))).
    vm_compute. reflexivity.
Defined.

Section SingleDirectory.
Variable w : World.
Variables (pre post : list dir_entry) (e : dir_entry).
Variable reg : gmap string string.

Local Abbreviation cmd := (command (args w)).
Local Abbreviation init_py :=
  (commands_dir (paths_of (root_dir w)) +:+ "/" +:+ cmd +:+ "/__init__.py").

Hypothesis listing : scandir_commands w = pre ++ e :: post.
Hypothesis others_before : Forall (λ e, entry_name e ≠ cmd) pre.
Hypothesis others_after : Forall (λ e, entry_name e ≠ cmd) post.
Hypothesis named : entry_name e = cmd.
Hypothesis has_init : path_exists w init_py = true.
Hypothesis has_register : register e = Some reg.

Lemma scan_skip cmds_dir rvt_ver root project skipped rest d f :
  Forall (λ e, entry_name e ≠ cmd) skipped →
  scan w cmd cmds_dir rvt_ver root project (skipped ++ rest) d f =
  scan w cmd cmds_dir rvt_ver root project rest d f.
Proof.
  induction 1 as [|x l Hx _ IH]; [reflexivity|].
  cbn. rewrite bool_decide_eq_false_2 by congruence. exact IH.
Qed.

(** With one directory of the requested name, resolution returns what
    reading that directory's register returns. *)
Lemma detect_single d :
  result (read_register w (rvt_version (args w)) (root_dir w)
            (project_code (args w)) cmd reg ∅) = Ret d →
  detect w = mret d.
Proof.
  intros Hd. unfold detect, command_detection.
  rewrite listing, scan_skip by exact others_before. cbn [scan].
  rewrite named, bool_decide_eq_true_2 by reflexivity.
  rewrite has_init, has_register.
  pose proof (read_register_trace w (rvt_version (args w)) (root_dir w)
                (project_code (args w)) cmd reg ∅) as Ht.
  destruct (read_register _ _ _ _ _ _ _) as [r t]. cbn in Hd, Ht. subst r t.
  unfold skip. cbn. rewrite scan_no_match by exact others_after. reflexivity.
Qed.
End SingleDirectory.

(** C3 (as stated, refuted): the [dwf] plugin registers the journal writer
    kind [dwf_export], which is neither of the two kinds the script knows;
    resolution returns normally, with an empty dict. *)
Lemma dwf_kind_resolves :
  scandir_commands dwf_run =
    [{| entry_name := "dwf";
        register := Some (sample_register "dwf" "rvt_journal_writer"
                            "dwf_export") |}] ∧
  detect dwf_run = mret ∅.
Proof. split; [reflexivity|]. vm_compute. reflexivity. Qed.

(** C3 (amended): the journal writer kind of the requested command is
    dispatched over [warnings_export_command] and [audit], each giving the
    command its fragment; any other kind gives no fragment and
    resolution still returns normally, with an empty dict.  The run then
    stops with a key error where the fragment is looked up, when the model
    exists, before a journal is written or a process started. *)
Theorem journal_writer_dispatch (w : World)
    (pre post : list dir_entry) (e : dir_entry)
    (reg : gmap string string) (kind : string) :
  scandir_commands w = pre ++ e :: post →
  Forall (λ e, entry_name e ≠ command (args w)) pre →
  Forall (λ e, entry_name e ≠ command (args w)) post →
  entry_name e = command (args w) →
  path_exists w (commands_dir (paths_of (root_dir w)) +:+ "/" +:+
                 command (args w) +:+ "/__init__.py") = true →
  register e = Some reg →
  reg !! "name" = Some (command (args w)) →
  reg !! "get_rps_button" = None →
  reg !! "rvt_journal_writer" = Some kind →
  (kind = "warnings_export_command" →
   detect w = mret {[ command (args w) :=
     warnings_export_command w (warnings_dir (paths_of (root_dir w)))
       (project_code (args w)) ]}) ∧
  (kind = "audit" → detect w = mret {[ command (args w) := "' " ]}) ∧
  (kind ≠ "warnings_export_command" → kind ≠ "audit" →
   detect w = mret ∅ ∧
   (model_exists w = true →
    result (main w) = Raised KeyError ∧
    journal_writes (trace (main w)) = [] ∧
    launched (trace (main w)) = [])).
Proof.
  intros Hl Hpre Hpost Hname Hinit Hreg Hn Hb Hk.
  assert (∀ d, result (read_register w (rvt_version (args w)) (root_dir w)
                 (project_code (args w)) (command (args w)) reg ∅) = Ret d →
               detect w = mret d) as Hsingle
    by (intros d; by apply detect_single with pre post e).
  split; [|split].
  - intros ->. apply Hsingle.
    unfold read_register, getitem. rewrite Hn, Hb, Hk. cbn.
    by rewrite bool_decide_eq_true_2.
  - intros ->. apply Hsingle.
    unfold read_register, getitem. rewrite Hn, Hb, Hk. cbn.
    by rewrite bool_decide_eq_true_2.
  - intros Hw Ha.
    assert (detect w = mret ∅) as Hd.
    { apply Hsingle. unfold read_register, getitem. rewrite Hn, Hb, Hk. cbn.
      rewrite bool_decide_eq_true_2 by reflexivity.
      by rewrite !bool_decide_eq_false_2. }
    split; [exact Hd|]. intros Hm.
    assert (launch w ∅ = raise KeyError) as Hlaunch
      by (apply launch_key_error, lookup_empty).
    rewrite main_result. unfold journal_writes, launched.
    rewrite !main_omap, Hd. unfold model_branch. rewrite Hm.
    cbn [result trace mret M_ret].
    rewrite supervise_result, !supervise_omap, Hlaunch.
    cbn [result trace raise omap list_omap app].
    rewrite !app_nil_r. split; [done|].
    split; [apply startup_journal_writes|apply startup_launched].
Qed.

Lemma journal_writer_dispatch_witness :
  detect dwf_run = mret ∅ ∧ result (main dwf_run) = Raised KeyError ∧
  detect (hanging "audit" 5) = mret {[ "audit" := "' " ]}.
Proof.
  pose proof (journal_writer_dispatch dwf_run [] []
    {| entry_name := "dwf";
       register := Some (sample_register "dwf" "rvt_journal_writer"
                           "dwf_export") |}
    (sample_register "dwf" "rvt_journal_writer" "dwf_export") "dwf_export"
    eq_refl (Forall_nil_2 _) (Forall_nil_2 _) eq_refl eq_refl eq_refl
    eq_refl eq_refl eq_refl) as (_ & _ & H).
  destruct H as [Hd Hm]; [discriminate..|].
  split; [exact Hd|]. split; [by apply Hm|].
  apply (journal_writer_dispatch (hanging "audit" 5) []
    [{| entry_name := "qc";
        register := Some (sample_register "qc" "get_rps_button" "qc_model") |};
     {| entry_name := "warnings";
        register := Some (sample_register "warnings" "rvt_journal_writer"
                            "warnings_export_command") |}]
    {| entry_name := "audit";
       register := Some (sample_register "audit" "rvt_journal_writer" "audit") |}
    (sample_register "audit" "rvt_journal_writer" "audit") "audit");
    try reflexivity; repeat constructor; discriminate.
Defined.

(** ** Runs that reach the timeout loop *)

Lemma bind_returns {A B} (m : M A) (f : A → M B) (b : B) :
  result (m ≫= f) = Ret b → ∃ x, result m = Ret x ∧ result (f x) = Ret b.
Proof. rewrite result_bind. destruct (result m); [eauto|discriminate..]. Qed.

Section Supervised.
Variable w : World.
Variables (child_proc : proc) (child_pid : Z).

Local Abbreviation a := (args w).
Local Abbreviation loop :=
  (poll_loop w child_proc child_pid (html_of w) (range (timeout a))).

Hypothesis model_found : model_exists w = true.
Hypothesis started : result (detect w ≫= launch w) = Ret (child_proc, child_pid).

Lemma supervised_result : result (main w) = Ret tt.
Proof.
  destruct (bind_returns _ _ _ started) as (d & Hd & Hl).
  rewrite main_result, Hd. unfold model_branch.
  by rewrite model_found, supervise_result, Hl.
Qed.

(** What a run that reaches the loop does, seen through a reading that
    ignores the messages printed outside the loop. *)
Lemma supervised_omap {B} (f : event → option B) :
  (∀ m, f (Print m) = None) →
  ∃ d, result (detect w) = Ret d ∧
       result (launch w d) = Ret (child_proc, child_pid) ∧
       omap f (trace (main w)) =
       omap f (trace (startup w)) ++ omap f (trace (launch w d)) ++
       omap f (trace loop) ++ omap f (trace (post_loop w (html_of w))).
Proof.
  intros Hf. destruct (bind_returns _ _ _ started) as (d & Hd & Hl).
  exists d. split; [exact Hd|]. split; [exact Hl|].
  rewrite main_omap, detect_silent, Hd by done. unfold model_branch.
  rewrite model_found, supervise_result, supervise_omap, Hl.
  rewrite finish_silent by done. cbn [app]. by rewrite !app_nil_r.
Qed.

Lemma supervised_polled :
  polled (trace (main w)) = polled (trace loop).
Proof.
  destruct (supervised_omap (λ e, match e with Poll p => Some p | _ => None end))
    as (d & _ & _ & H); [done|].
  unfold polled. rewrite H. fold polled.
  rewrite startup_polled, launch_polled. unfold post_loop, tell, skip.
  destruct (bool_decide _); cbn; by rewrite app_nil_r.
Qed.

Lemma supervised_killed :
  killed (trace (main w)) = killed (trace loop).
Proof.
  destruct (supervised_omap (λ e, match e with Kill p => Some p | _ => None end))
    as (d & _ & _ & H); [done|].
  unfold killed. rewrite H. fold killed.
  rewrite startup_killed, launch_killed. unfold post_loop, tell, skip.
  destruct (bool_decide _); cbn; by rewrite app_nil_r.
Qed.

Lemma supervised_logged :
  logged (trace (main w)) =
  (INFO, TaskStarted (project_code a) (current_proc_hash w) a) ::
  logged (trace loop) ++ logged (trace (post_loop w (html_of w))).
Proof.
  destruct (supervised_omap
              (λ e, match e with Log l r => Some (l, r) | _ => None end))
    as (d & _ & _ & H); [done|].
  unfold logged. rewrite H. fold logged.
  by rewrite startup_logged, launch_logged.
Qed.

Lemma supervised_hooks :
  hooks (trace (main w)) =
  hooks (trace loop) ++ hooks (trace (post_loop w (html_of w))).
Proof.
  destruct (supervised_omap
              (λ e, match e with
                    | UpdateGraphs _ _ | UpdateJsonAndBokeh _ _ => Some e
                    | _ => None
                    end))
    as (d & _ & _ & H); [done|].
  unfold hooks. rewrite H. fold hooks.
  by rewrite startup_hooks, launch_hooks.
Qed.

Lemma supervised_launched :
  launched (trace (main w)) =
  [Popen (rvt_version_path a) (journal_file_path w) (root_dir w)] ++
  launched (trace loop).
Proof.
  destruct (supervised_omap
              (λ e, match e with Popen _ _ _ => Some e | _ => None end))
    as (d & _ & Hl & H); [done|].
  unfold launched. rewrite H. fold launched.
  rewrite startup_launched, (proj1 (launch_started w d _ _ Hl)).
  unfold post_loop, tell, skip.
  destruct (bool_decide _); cbn; by rewrite app_nil_r.
Qed.

(** The lines printed inside the loop, next to those of the rest. *)
Lemma supervised_timeout_printed :
  MsgTimeout ∈ printed (trace loop) → MsgTimeout ∈ printed (trace (main w)).
Proof.
  intros H. destruct (bind_returns _ _ _ started) as (d & Hd & Hl).
  unfold printed. rewrite main_omap, Hd. unfold model_branch.
  rewrite model_found, supervise_omap, Hl.
  rewrite !elem_of_app. right. right. left. right. by left.
Qed.
End Supervised.

Lemma warning_rows_logged t :
  warning_rows t =
  omap (λ lr, match lr.1 with WARNING => Some lr.2 | INFO => None end)
    (logged t).
Proof.
  induction t as [|e t IH]; [reflexivity|].
  destruct e as [| |[]| | | | | | | | |]; cbn; by rewrite ?IH.
Qed.

(** ** The deadline *)

(** C1 (the code at the failing input): with a timeout of zero (or less)
    the script starts Revit, runs no pass of the timeout loop, and ends
    normally without a poll and without a kill: the started process is
    left running. *)
Theorem zero_timeout_never_kills (w : World) (child_proc : proc)
    (child_pid : Z) :
  model_exists w = true →
  result (detect w ≫= launch w) = Ret (child_proc, child_pid) →
  timeout (args w) ≤ 0 →
  result (main w) = Ret tt ∧
  launched (trace (main w)) =
    [Popen (rvt_version_path (args w)) (journal_file_path w) (root_dir w)] ∧
  polled (trace (main w)) = [] ∧
  killed (trace (main w)) = [].
Proof.
  intros Hm Hs Ht.
  rewrite (supervised_result w _ _ Hm Hs), (supervised_launched w _ _ Hm Hs),
    (supervised_polled w _ _ Hm Hs), (supervised_killed w _ _ Hm Hs).
  by rewrite poll_loop_empty.
Qed.

Lemma zero_timeout_never_kills_witness :
  timeout (args (hanging "audit" 0)) ≤ 0 ∧
  launched (trace (main (hanging "audit" 0))) =
    [Popen "C:\Revit\Revit.exe" "C:\svc\journals\123_N.txt" "C:\svc"] ∧
  killed (trace (main (hanging "audit" 0))) = [].
Proof.
  assert (timeout (args (hanging "audit" 0)) ≤ 0) as Ht by (cbn; lia).
  split; [exact Ht|].
  destruct (zero_timeout_never_kills (hanging "audit" 0) revit_exe 4200)
    as (_ & Hl & _ & Hk);
    [vm_compute; reflexivity|vm_compute; reflexivity|exact Ht|].
  split; [exact Hl|exact Hk].
Defined.

(** ** Reporting *)

(** C7 (the code at the failing input): a warnings run whose process
    reports exit code 0 at some pass before the deadline appends the
    result row [project;hash;0] twice, once in the loop and once after
    it; the warnings collaborator is called once. *)
Theorem warnings_success_logged_twice (w : World) (child_proc : proc)
    (child_pid : Z) (t : nat) :
  command (args w) = "warnings" →
  model_exists w = true →
  result (detect w ≫= launch w) = Ret (child_proc, child_pid) →
  Z.of_nat t < timeout (args w) →
  (∀ i, (i < t)%nat → poll_at w i ≠ Some 0) →
  poll_at w t = Some 0 →
  logged (trace (main w)) =
    [(INFO, TaskStarted (project_code (args w)) (current_proc_hash w) (args w));
     (INFO, Result (project_code (args w)) (current_proc_hash w) 0);
     (INFO, Result (project_code (args w)) (current_proc_hash w) 0)] ∧
  hooks (trace (main w)) =
    [UpdateJsonAndBokeh (project_code (args w)) (html_of w)].
Proof.
  intros Hc Hm Hs Ht Hp Hz.
  rewrite (supervised_logged w _ _ Hm Hs), (supervised_hooks w _ _ Hm Hs).
  rewrite (poll_loop_completes w _ _ _ t Ht Hp Hz).
  unfold logged, hooks. rewrite !omap_app, !ticks_silent by done.
  unfold success_events, post_loop, tell. rewrite Hc. done.
Qed.

Lemma warnings_success_logged_twice_witness :
  poll_at warnings_done 1 = Some 0 ∧
  logged (trace (main warnings_done)) =
    [(INFO, TaskStarted "123_N" 77 (sample_args "warnings" 5));
     (INFO, Result "123_N" 77 0);
     (INFO, Result "123_N" 77 0)].
Proof.
  split; [reflexivity|].
  refine (proj1 (warnings_success_logged_twice warnings_done revit_exe 4200 1
                   eq_refl _ _ _ _ eq_refl)).
  - vm_compute. reflexivity.
  - vm_compute. reflexivity.
  - cbn. lia.
  - intros i Hi. assert (i = 0%nat) as -> by lia. discriminate.
Defined.

(** C8 (as stated, refuted): a warnings run of five seconds whose process
    never exits appends no row at warning level. *)
Lemma warnings_timeout_no_warning_row :
  command (args (hanging "warnings" 5)) = "warnings" ∧
  (∀ i, poll_at (hanging "warnings" 5) i = None) ∧
  length (warning_rows (trace (main (hanging "warnings" 5)))) ≠ 1%nat.
Proof.
  split; [reflexivity|]. split; [reflexivity|]. vm_compute. discriminate.
Qed.

(** C8 (amended): a warnings run with a timeout of at least one second
    whose process never exits prints the timeout message, kills the first
    child once, calls the warnings collaborator once, and appends, after
    the task_started row, one result row: at info level, with code 0.
    No row is appended at warning level. *)
Theorem warnings_timeout_reports_info (w : World) (child_proc : proc)
    (child_pid : Z) :
  command (args w) = "warnings" →
  model_exists w = true →
  result (detect w ≫= launch w) = Ret (child_proc, child_pid) →
  1 ≤ timeout (args w) →
  (∀ i, poll_at w i = None) →
  result (main w) = Ret tt ∧
  MsgTimeout ∈ printed (trace (main w)) ∧
  killed (trace (main w)) = [child_proc] ∧
  hooks (trace (main w)) =
    [UpdateJsonAndBokeh (project_code (args w)) (html_of w)] ∧
  logged (trace (main w)) =
    [(INFO, TaskStarted (project_code (args w)) (current_proc_hash w) (args w));
     (INFO, Result (project_code (args w)) (current_proc_hash w) 0)] ∧
  warning_rows (trace (main w)) = [].
Proof.
  intros Hc Hm Hs Ht Hp.
  assert (timeout (args w) = Z.of_nat (S (Z.to_nat (timeout (args w)) - 1)))
    as Hn by lia.
  assert (∀ i, (i < S (Z.to_nat (timeout (args w)) - 1))%nat →
               poll_at w i ≠ Some 0) as Hnz
    by (intros i _; by rewrite Hp).
  pose proof (poll_loop_expires w child_proc child_pid (html_of w) _ Hn Hnz)
    as Hloop.
  assert (logged (trace (main w)) =
    [(INFO, TaskStarted (project_code (args w)) (current_proc_hash w) (args w));
     (INFO, Result (project_code (args w)) (current_proc_hash w) 0)]) as Hlog.
  { rewrite (supervised_logged w _ _ Hm Hs), Hloop.
    unfold logged. rewrite !omap_app, !ticks_silent by done.
    unfold deadline_events, post_loop, tell. by rewrite Hp, Hc. }
  split; [by apply supervised_result with child_proc child_pid|].
  split; [|split; [|split; [|split]]].
  - apply (supervised_timeout_printed w _ _ Hm Hs). rewrite Hloop.
    unfold printed, deadline_events. rewrite omap_app, elem_of_app.
    right. cbn. right. by left.
  - rewrite (supervised_killed w _ _ Hm Hs), Hloop.
    unfold killed. rewrite !omap_app, !ticks_silent by done.
    unfold deadline_events. by rewrite Hp, Hc.
  - rewrite (supervised_hooks w _ _ Hm Hs), Hloop.
    unfold hooks. rewrite !omap_app, !ticks_silent by done.
    unfold deadline_events, post_loop, tell. by rewrite Hp, Hc.
  - exact Hlog.
  - by rewrite warning_rows_logged, Hlog.
Qed.

Lemma warnings_timeout_reports_info_witness :
  1 ≤ timeout (args (hanging "warnings" 5)) ∧
  killed (trace (main (hanging "warnings" 5))) = [revit_exe] ∧
  logged (trace (main (hanging "warnings" 5))) =
    [(INFO, TaskStarted "123_N" 77 (sample_args "warnings" 5));
     (INFO, Result "123_N" 77 0)].
Proof.
  assert (1 ≤ timeout (args (hanging "warnings" 5))) as Ht by (cbn; lia).
  split; [exact Ht|].
  destruct (warnings_timeout_reports_info (hanging "warnings" 5) revit_exe 4200)
    as (_ & _ & Hk & _ & Hl & _);
    [reflexivity|vm_compute; reflexivity|vm_compute; reflexivity|exact Ht
    |reflexivity|].
  split; [exact Hk|exact Hl].
Defined.

(** C10: when the started process exits with a non-zero code at some pass
    before the deadline, the loop still runs every pass up to the last,
    prints the timeout message there, and, the poll result being truthy,
    kills nothing and appends no row.  The run reports only what the
    post-loop block reports: for warnings one collaborator call and one
    info row with code 0, for every other command nothing at all. *)
Theorem nonzero_exit_goes_unreported (w : World) (child_proc : proc)
    (child_pid : Z) (t : nat) (code : Z) :
  model_exists w = true →
  result (detect w ≫= launch w) = Ret (child_proc, child_pid) →
  code ≠ 0 →
  Z.of_nat t < timeout (args w) →
  (∀ i, (i < t)%nat → poll_at w i = None) →
  (∀ i, (t ≤ i)%nat → poll_at w i = Some code) →
  result (main w) = Ret tt ∧
  polled (trace (main w)) =
    replicate (Z.to_nat (timeout (args w))) (run_proc w) ∧
  MsgTimeout ∈ printed (trace (main w)) ∧
  killed (trace (main w)) = [] ∧
  warning_rows (trace (main w)) = [] ∧
  logged (trace (main w)) =
    (INFO, TaskStarted (project_code (args w)) (current_proc_hash w) (args w)) ::
    (if bool_decide (command (args w) = "warnings")
     then [(INFO, Result (project_code (args w)) (current_proc_hash w) 0)]
     else []) ∧
  hooks (trace (main w)) =
    (if bool_decide (command (args w) = "warnings")
     then [UpdateJsonAndBokeh (project_code (args w)) (html_of w)]
     else []).
Proof.
  intros Hm Hs Hcode Ht Hnone Hsome.
  set (n := (Z.to_nat (timeout (args w)) - 1)%nat).
  assert (timeout (args w) = Z.of_nat (S n)) as Hn by lia.
  assert (∀ i, (i < S n)%nat → poll_at w i ≠ Some 0) as Hnz.
  { intros i _. destruct (decide (i < t)%nat) as [Hi|Hi].
    - by rewrite Hnone.
    - rewrite Hsome by lia. congruence. }
  assert (falsy_int (poll_at w n) = false) as Hlast.
  { rewrite Hsome by lia. cbn. by apply bool_decide_eq_false_2. }
  pose proof (poll_loop_expires w child_proc child_pid (html_of w) _ Hn Hnz)
    as Hloop.
  assert (logged (trace (main w)) =
    (INFO, TaskStarted (project_code (args w)) (current_proc_hash w) (args w)) ::
    (if bool_decide (command (args w) = "warnings")
     then [(INFO, Result (project_code (args w)) (current_proc_hash w) 0)]
     else [])) as Hlog.
  { rewrite (supervised_logged w _ _ Hm Hs), Hloop.
    unfold logged. rewrite !omap_app, !ticks_silent by done.
    unfold deadline_events, post_loop, tell, skip. rewrite Hlast.
    by destruct (bool_decide _). }
  split; [by apply supervised_result with child_proc child_pid|].
  split; [|split; [|split; [|split; [|split]]]].
  - rewrite (supervised_polled w _ _ Hm Hs), Hloop.
    unfold polled. rewrite omap_app. fold polled.
    rewrite ticks_polled, length_seq. unfold deadline_events.
    rewrite Hlast, Hn, Nat2Z.id. cbn. by rewrite app_nil_r.
  - apply (supervised_timeout_printed w _ _ Hm Hs). rewrite Hloop.
    unfold printed, deadline_events. rewrite omap_app, elem_of_app.
    right. cbn. right. by left.
  - rewrite (supervised_killed w _ _ Hm Hs), Hloop.
    unfold killed. rewrite !omap_app, !ticks_silent by done.
    unfold deadline_events. by rewrite Hlast.
  - rewrite warning_rows_logged, Hlog. by destruct (bool_decide _).
  - exact Hlog.
  - rewrite (supervised_hooks w _ _ Hm Hs), Hloop.
    unfold hooks. rewrite !omap_app, !ticks_silent by done.
    unfold deadline_events, post_loop, tell, skip. rewrite Hlast.
    by destruct (bool_decide _).
Qed.

Lemma nonzero_exit_goes_unreported_witness :
  poll_at audit_failed 2 = Some 1 ∧
  polled (trace (main audit_failed)) = replicate 5 cmd_exe ∧
  killed (trace (main audit_failed)) = [] ∧
  logged (trace (main audit_failed)) =
    [(INFO, TaskStarted "123_N" 77 (sample_args "audit" 5))] ∧
  hooks (trace (main audit_failed)) = [].
Proof.
  split; [reflexivity|].
  destruct (nonzero_exit_goes_unreported audit_failed revit_exe 4200 2 1)
    as (_ & Hp & _ & Hk & _ & Hl & Hh).
  - vm_compute. reflexivity.
  - vm_compute. reflexivity.
  - discriminate.
  - cbn. lia.
  - intros i Hi. unfold audit_failed, sample_world, exits_at. cbn.
    by rewrite decide_True.
  - intros i Hi. unfold audit_failed, sample_world, exits_at. cbn.
    rewrite decide_False by lia. reflexivity.
  - split; [exact Hp|]. split; [exact Hk|]. split; [exact Hl|exact Hh].
Defined.

(** ** Child discovery and the handles supervised *)

Lemma poll_loop_not_found w child_proc child_pid html secs :
  not_found_reports (trace (poll_loop w child_proc child_pid html secs)) = [].
Proof.
  induction secs as [|sec rest IH]; [reflexivity|].
  cbn [poll_loop]. unfold tell, print, skip. cbn.
  destruct (bool_decide (poll_at w sec = _)); cbn;
    [by destruct (bool_decide _)|].
  destruct (bool_decide _); cbn; [|exact IH].
  destruct (falsy_int _); cbn; [|exact IH].
  by destruct (bool_decide _).
Qed.

(** Polls and kills happen in the timeout loop only, and the loop is
    entered only with the handles [launch] returned. *)
Lemma main_supervision (w : World) :
  (polled (trace (main w)) = [] ∧ killed (trace (main w)) = []) ∨
  ∃ d child_proc child_pid,
    result (launch w d) = Ret (child_proc, child_pid) ∧
    polled (trace (main w)) =
      polled (trace (poll_loop w child_proc child_pid (html_of w)
                       (range (timeout (args w))))) ∧
    killed (trace (main w)) =
      killed (trace (poll_loop w child_proc child_pid (html_of w)
                       (range (timeout (args w))))).
Proof.
  unfold polled, killed. rewrite !main_omap, !detect_silent by done.
  fold polled killed. rewrite startup_polled, startup_killed. cbn [app].
  destruct (result (detect w)) as [d| |]; [|by left..].
  unfold polled, killed. rewrite !finish_silent by done. fold polled killed.
  assert (∀ (r : res unit) (l : list proc),
            l ++ match r with Ret _ => [] | _ => [] end = l) as Hnil
    by (intros [] l; apply app_nil_r).
  rewrite !Hnil. unfold model_branch.
  destruct (model_exists w); [|by left].
  unfold polled, killed. rewrite !supervise_omap. fold polled killed.
  rewrite launch_polled, launch_killed. cbn [app].
  destruct (result (launch w d)) as [[cp cpid]| |] eqn:Hl; [|by left..].
  right. exists d, cp, cpid. split; [done|].
  assert (polled (trace (post_loop w (html_of w))) = [] ∧
          killed (trace (post_loop w (html_of w))) = []) as [-> ->]
    by (unfold post_loop, tell, skip; by destruct (bool_decide _)).
  by rewrite !app_nil_r.
Qed.

(** X3: Whatever the started process does, it is polled at most [timeout]
    times. *)
Lemma polls_bounded (w : World) :
  (length (polled (trace (main w))) ≤ Z.to_nat (timeout (args w)))%nat.
Proof.
  destruct (main_supervision w) as [[-> _]|(d & cp & cpid & _ & -> & _)];
    [cbn; lia|].
  destruct (poll_loop_targets w cp cpid (html_of w) (range (timeout (args w))))
    as (_ & _ & Hn).
  unfold range in Hn. by rewrite length_seq in Hn.
Qed.

(** A process that has not exited at any pass of a loop of at least one
    second gets its first child killed at the last pass, whatever the
    command. *)
Lemma expired_run_kills_child (w : World) (child_proc : proc)
    (child_pid : Z) :
  model_exists w = true →
  result (detect w ≫= launch w) = Ret (child_proc, child_pid) →
  1 ≤ timeout (args w) →
  (∀ i, poll_at w i = None) →
  killed (trace (main w)) = [child_proc].
Proof.
  intros Hm Hs Ht Hp.
  assert (timeout (args w) = Z.of_nat (S (Z.to_nat (timeout (args w)) - 1)))
    as Hn by lia.
  rewrite (supervised_killed w _ _ Hm Hs).
  rewrite (poll_loop_expires w child_proc child_pid (html_of w) _ Hn)
    by (intros i _; by rewrite Hp).
  unfold killed. rewrite !omap_app, !ticks_silent by done.
  unfold deadline_events. rewrite Hp. cbn. by destruct (bool_decide _).
Qed.

(** C4 (as stated, refuted): in a run whose started process has no child
    after the settle delay the script ends with an index error, and the
    started process is never polled. *)
Lemma childless_run_raises :
  children childless 0 = [] ∧
  result (main childless) = Raised IndexError ∧
  polled (trace (main childless)) = [].
Proof. split; [reflexivity|]. split; vm_compute; reflexivity. Qed.

(** C4 (amended): child discovery takes the first child of the started
    process and has no result for "none": when the process has no child
    after the settle delay, the lookup of the first child raises an index
    error and the run ends there, after the process was started and
    before any poll, kill, collaborator call or result row. *)
Theorem no_child_stops_run (w : World) (d : gmap string string)
    (fragment : string) :
  model_exists w = true →
  result (detect w) = Ret d →
  d !! command (args w) = Some fragment →
  children w 0 = [] →
  result (main w) = Raised IndexError ∧
  launched (trace (main w)) =
    [Popen (rvt_version_path (args w)) (journal_file_path w) (root_dir w)] ∧
  polled (trace (main w)) = [] ∧
  killed (trace (main w)) = [] ∧
  hooks (trace (main w)) = [] ∧
  logged (trace (main w)) =
    [(INFO, TaskStarted (project_code (args w)) (current_proc_hash w) (args w))].
Proof.
  intros Hm Hd Hf Hc.
  destruct (launch_index_error w d fragment Hf Hc) as [Hr Hl].
  rewrite main_result. unfold launched, polled, killed, hooks, logged.
  rewrite !main_omap, !detect_silent, Hd by done. unfold model_branch.
  rewrite Hm, supervise_result, !supervise_omap, Hr. cbn [app].
  rewrite !app_nil_r.
  fold launched polled killed hooks logged.
  rewrite Hl, launch_polled, launch_killed, launch_hooks, launch_logged.
  rewrite startup_launched, startup_polled, startup_killed, startup_hooks,
    startup_logged.
  done.
Qed.

Lemma no_child_stops_run_witness :
  children childless 0 = [] ∧ result (main childless) = Raised IndexError.
Proof.
  split; [reflexivity|].
  refine (proj1 (no_child_stops_run childless {[ "audit" := "' " ]} "' "
                   _ _ eq_refl eq_refl)).
  - vm_compute. reflexivity.
  - vm_compute. reflexivity.
Defined.

(** C5 (as stated, refuted): in a qc run of five seconds whose process
    never exits, the handle killed at the deadline is the first child,
    not the started process. *)
Lemma timeout_kill_hits_child :
  killed (trace (main (hanging "qc" 5))) = [revit_exe] ∧
  revit_exe ≠ run_proc (hanging "qc" 5).
Proof. split; [vm_compute; reflexivity|discriminate]. Qed.

(** C5 (amended): every poll is on the handle of the started process, and
    every kill is on the first child found after the settle delay (the
    head of the first [children()] call); the started process itself is
    never killed by the script. *)
Theorem polls_parent_kills_child (w : World) :
  Forall (eq (run_proc w)) (polled (trace (main w))) ∧
  Forall (λ p, head (children w 0) = Some p) (killed (trace (main w))).
Proof.
  destruct (main_supervision w) as [[-> ->]|(d & cp & cpid & Hl & -> & ->)];
    [by split|].
  destruct (poll_loop_targets w cp cpid (html_of w) (range (timeout (args w))))
    as (Hp & Hk & _).
  split; [exact Hp|].
  eapply Forall_impl; [exact Hk|].
  intros p <-. by apply launch_child with d cpid.
Qed.

(** ** The missing model *)

(** C6 (as stated, refuted): with the model file missing and the command
    unregistered, the script exits at resolution and never reports that
    the model was not found. *)
Lemma missing_model_unknown_command :
  model_exists unknown_command_no_model = false ∧
  result (main unknown_command_no_model) = SystemExit ∧
  not_found_reports (trace (main unknown_command_no_model)) = [].
Proof. split; [reflexivity|]. split; vm_compute; reflexivity. Qed.

(** C6 (amended): the script reports the model as not found if and only
    if the model file does not exist and command resolution returned
    (resolution runs first and may exit or raise); and whenever the model
    file does not exist, no journal or add-in file is written, no process
    is started and no collaborator is called. *)
Theorem model_not_found_iff (w : World) :
  (not_found_reports (trace (main w)) ≠ [] ↔
   model_exists w = false ∧ ∃ d, result (detect w) = Ret d) ∧
  (model_exists w = false →
   journal_writes (trace (main w)) = [] ∧
   launched (trace (main w)) = [] ∧
   hooks (trace (main w)) = []).
Proof.
  split.
  - unfold not_found_reports. rewrite main_omap, detect_silent by done.
    fold not_found_reports. rewrite startup_not_found. cbn [app].
    destruct (result (detect w)) as [d| |];
      [|split; [done|by intros [_ [? [=]]]]..].
    unfold not_found_reports. rewrite finish_silent by done.
    fold not_found_reports. unfold model_branch.
    destruct (model_exists w) eqn:Hm.
    + unfold not_found_reports. rewrite supervise_omap.
      fold not_found_reports. rewrite launch_not_found. cbn [app].
      assert (∀ r : res unit, match r with Ret _ | _ => @nil message end = [])
        as Hnil by (by intros []).
      destruct (result (launch w d)) as [[cp cpid]| |].
      * rewrite poll_loop_not_found. unfold post_loop, tell, skip.
        destruct (bool_decide _); cbn; rewrite Hnil;
          (split; [done|by intros [[=] _]]).
      * rewrite Hnil. split; [done|by intros [[=] _]].
      * rewrite Hnil. split; [done|by intros [[=] _]].
    + cbn. split; [eauto|discriminate].
  - intros Hm. unfold journal_writes, launched, hooks.
    rewrite !main_omap, !detect_silent by done.
    fold journal_writes launched hooks.
    rewrite startup_journal_writes, startup_launched, startup_hooks.
    destruct (result (detect w)) as [d| |]; [|done..].
    unfold journal_writes, launched, hooks. rewrite !finish_silent by done.
    unfold model_branch. by rewrite Hm.
Qed.

Lemma model_not_found_iff_witness :
  model_exists (sample_world "audit" 5 sample_commands [
    "C:\svc\commands/audit/__init__.py"] [revit_exe] never_exits) = false ∧
  not_found_reports (trace (main (sample_world "audit" 5 sample_commands [
    "C:\svc\commands/audit/__init__.py"] [revit_exe] never_exits))) ≠ [] ∧
  launched (trace (main (sample_world "audit" 5 sample_commands [
    "C:\svc\commands/audit/__init__.py"] [revit_exe] never_exits))) = [].
Proof.
  split; [reflexivity|].
  destruct (model_not_found_iff (sample_world "audit" 5 sample_commands [
    "C:\svc\commands/audit/__init__.py"] [revit_exe] never_exits))
    as [Hiff Hno].
  split.
  - apply Hiff. split; [reflexivity|]. eexists. vm_compute. reflexivity.
  - by apply Hno.
Defined.

(** ** Further properties of the timeout loop *)

(** X1: A run whose process reports exit code 0 for the first time at pass
    [t], before the deadline, polls [t + 1] times and no more, kills
    nothing, logs the result row at info level, and calls the graph
    collaborator of qc (in the loop) or of warnings (after it), none for
    any other command. *)
Theorem completed_run_stops_polling (w : World) (child_proc : proc)
    (child_pid : Z) (t : nat) :
  model_exists w = true →
  result (detect w ≫= launch w) = Ret (child_proc, child_pid) →
  Z.of_nat t < timeout (args w) →
  (∀ i, (i < t)%nat → poll_at w i ≠ Some 0) →
  poll_at w t = Some 0 →
  result (main w) = Ret tt ∧
  polled (trace (main w)) = replicate (S t) (run_proc w) ∧
  killed (trace (main w)) = [] ∧
  warning_rows (trace (main w)) = [] ∧
  logged (trace (main w)) =
    (INFO, TaskStarted (project_code (args w)) (current_proc_hash w) (args w)) ::
    (INFO, Result (project_code (args w)) (current_proc_hash w) 0) ::
    (if bool_decide (command (args w) = "warnings")
     then [(INFO, Result (project_code (args w)) (current_proc_hash w) 0)]
     else []) ∧
  hooks (trace (main w)) =
    (if bool_decide (command (args w) = "qc")
     then [UpdateGraphs (project_code (args w)) (html_of w)] else []) ++
    (if bool_decide (command (args w) = "warnings")
     then [UpdateJsonAndBokeh (project_code (args w)) (html_of w)] else []).
Proof.
  intros Hm Hs Ht Hp Hz.
  pose proof (poll_loop_completes w child_proc child_pid (html_of w) t Ht Hp Hz)
    as Hloop.
  assert (logged (trace (main w)) =
    (INFO, TaskStarted (project_code (args w)) (current_proc_hash w) (args w)) ::
    (INFO, Result (project_code (args w)) (current_proc_hash w) 0) ::
    (if bool_decide (command (args w) = "warnings")
     then [(INFO, Result (project_code (args w)) (current_proc_hash w) 0)]
     else [])) as Hlog.
  { rewrite (supervised_logged w _ _ Hm Hs), Hloop.
    unfold logged. rewrite !omap_app, !ticks_silent by done.
    unfold success_events, post_loop, tell, skip.
    by repeat destruct (bool_decide _). }
  split; [by apply supervised_result with child_proc child_pid|].
  split; [|split; [|split; [|split]]].
  - rewrite (supervised_polled w _ _ Hm Hs), Hloop.
    unfold polled. rewrite omap_app. fold polled.
    rewrite ticks_polled, length_seq.
    assert (polled (success_events w (html_of w)) = []) as ->
      by (unfold success_events;
          destruct (bool_decide (command (args w) = "qc")); reflexivity).
    apply app_nil_r.
  - rewrite (supervised_killed w _ _ Hm Hs), Hloop.
    unfold killed. rewrite !omap_app, !ticks_silent by done.
    unfold success_events.
    by destruct (bool_decide (command (args w) = "qc")).
  - rewrite warning_rows_logged, Hlog.
    by destruct (bool_decide (command (args w) = "warnings")).
  - exact Hlog.
  - rewrite (supervised_hooks w _ _ Hm Hs), Hloop.
    unfold hooks. rewrite !omap_app, !ticks_silent by done.
    unfold success_events, post_loop, tell, skip.
    by destruct (bool_decide (command (args w) = "qc")),
         (bool_decide (command (args w) = "warnings")).
Qed.

Lemma completed_run_stops_polling_witness :
  poll_at (sample_world "qc" 10 sample_commands sample_files [revit_exe]
             (exits_at 3 0)) 3 = Some 0 ∧
  polled (trace (main (sample_world "qc" 10 sample_commands sample_files
                         [revit_exe] (exits_at 3 0)))) = replicate 4 cmd_exe ∧
  hooks (trace (main (sample_world "qc" 10 sample_commands sample_files
                        [revit_exe] (exits_at 3 0)))) =
    [UpdateGraphs "123_N" (Some "C:\svc\commands\qc")].
Proof.
  split; [reflexivity|].
  destruct (completed_run_stops_polling
              (sample_world "qc" 10 sample_commands sample_files [revit_exe]
                 (exits_at 3 0)) revit_exe 4200 3)
    as (_ & Hp & _ & _ & _ & Hh).
  - vm_compute. reflexivity.
  - vm_compute. reflexivity.
  - cbn. lia.
  - intros i Hi. unfold sample_world, exits_at. cbn.
    by rewrite decide_True.
  - reflexivity.
  - split; [exact Hp|exact Hh].
Defined.

(** X2: A run of any command other than warnings whose process has not exited
    at any pass, with a timeout of at least one second, polls [timeout]
    times, kills the first child, appends one row at warning level with
    code 1 and calls no collaborator (qc graphs are not updated). *)
Theorem timeout_logs_warning_row (w : World) (child_proc : proc)
    (child_pid : Z) :
  command (args w) ≠ "warnings" →
  model_exists w = true →
  result (detect w ≫= launch w) = Ret (child_proc, child_pid) →
  1 ≤ timeout (args w) →
  (∀ i, poll_at w i = None) →
  result (main w) = Ret tt ∧
  polled (trace (main w)) =
    replicate (Z.to_nat (timeout (args w))) (run_proc w) ∧
  killed (trace (main w)) = [child_proc] ∧
  logged (trace (main w)) =
    [(INFO, TaskStarted (project_code (args w)) (current_proc_hash w) (args w));
     (WARNING, Result (project_code (args w)) (current_proc_hash w) 1)] ∧
  hooks (trace (main w)) = [].
Proof.
  intros Hc Hm Hs Ht Hp.
  set (n := (Z.to_nat (timeout (args w)) - 1)%nat).
  assert (timeout (args w) = Z.of_nat (S n)) as Hn by lia.
  assert (∀ i, (i < S n)%nat → poll_at w i ≠ Some 0) as Hnz
    by (intros i _; by rewrite Hp).
  pose proof (poll_loop_expires w child_proc child_pid (html_of w) _ Hn Hnz)
    as Hloop.
  assert (bool_decide (command (args w) = "warnings") = false) as Hb
    by (by apply bool_decide_eq_false_2).
  clear Hc. rename Hb into Hc.
  split; [by apply supervised_result with child_proc child_pid|].
  split; [|split; [|split]].
  - rewrite (supervised_polled w _ _ Hm Hs), Hloop.
    unfold polled. rewrite omap_app. fold polled.
    rewrite ticks_polled, length_seq.
    assert (polled (deadline_events w child_proc child_pid (poll_at w n)) = [])
      as -> by (unfold deadline_events; rewrite Hp, Hc; reflexivity).
    rewrite Hn, Nat2Z.id. apply app_nil_r.
  - rewrite (supervised_killed w _ _ Hm Hs), Hloop.
    unfold killed. rewrite !omap_app, !ticks_silent by done.
    unfold deadline_events. by rewrite Hp, Hc.
  - rewrite (supervised_logged w _ _ Hm Hs), Hloop.
    unfold logged. rewrite !omap_app, !ticks_silent by done.
    unfold deadline_events, post_loop, tell, skip. by rewrite Hp, Hc.
  - rewrite (supervised_hooks w _ _ Hm Hs), Hloop.
    unfold hooks. rewrite !omap_app, !ticks_silent by done.
    unfold deadline_events, post_loop, tell, skip. by rewrite Hp, Hc.
Qed.

Lemma timeout_logs_warning_row_witness :
  command (args (hanging "qc" 5)) ≠ "warnings" ∧
  logged (trace (main (hanging "qc" 5))) =
    [(INFO, TaskStarted "123_N" 77 (sample_args "qc" 5));
     (WARNING, Result "123_N" 77 1)] ∧
  hooks (trace (main (hanging "qc" 5))) = [].
Proof.
  assert (command (args (hanging "qc" 5)) ≠ "warnings") as Hc by discriminate.
  split; [exact Hc|].
  destruct (timeout_logs_warning_row (hanging "qc" 5) revit_exe 4200)
    as (_ & _ & _ & Hl & Hh);
    [exact Hc|vm_compute; reflexivity|vm_compute; reflexivity|cbn; lia
    |reflexivity|].
  split; [exact Hl|exact Hh].
Defined.

Lemma poll_loop_kills w child_proc child_pid html n : ∀ s,
  (s + n = Z.to_nat (timeout (args w)))%nat →
  killed (trace (poll_loop w child_proc child_pid html (seq s n))) = [] ∨
  (killed (trace (poll_loop w child_proc child_pid html (seq s n))) =
     [child_proc] ∧
   1 ≤ timeout (args w) ∧
   poll_at w (Z.to_nat (timeout (args w)) - 1) = None).
Proof.
  induction n as [|n IH]; intros s Hs; [by left|].
  cbn [seq].
  destruct (decide (poll_at w s = Some 0)) as [Hz|Hz].
  { left. rewrite poll_loop_success by exact Hz.
    unfold killed. rewrite omap_app. unfold success_events.
    by destruct (bool_decide (command (args w) = "qc")). }
  destruct (decide (timeout (args w) - Z.of_nat s - 1 = 0)) as [Hd|Hd].
  - assert (n = 0%nat) as -> by lia. cbn [seq].
    rewrite poll_loop_deadline by assumption.
    unfold killed. rewrite omap_app. unfold deadline_events.
    destruct (poll_at w s) as [z|] eqn:Hp.
    + left. cbn. rewrite bool_decide_eq_false_2 by congruence. reflexivity.
    + right. replace (Z.to_nat (timeout (args w)) - 1)%nat with s by lia.
      split; [|split; [lia|exact Hp]].
      cbn. by destruct (bool_decide (command (args w) = "warnings")).
  - rewrite poll_loop_wait by assumption.
    unfold killed. rewrite omap_app. fold killed.
    apply (IH (S s)). lia.
Qed.

(** X4: Every run kills nothing at all, or kills exactly one handle, the
    first child found after the settle delay; and it kills only when the
    timeout is at least one second and the poll of the last pass returned
    None.  A process that has exited by the last pass is never killed. *)
Theorem kill_needs_silent_last_pass (w : World) :
  killed (trace (main w)) = [] ∨
  (1 ≤ timeout (args w) ∧
   poll_at w (Z.to_nat (timeout (args w)) - 1) = None ∧
   ∃ child_proc, head (children w 0) = Some child_proc ∧
                 killed (trace (main w)) = [child_proc]).
Proof.
  destruct (main_supervision w) as [[_ ->]|(d & cp & cpid & Hl & _ & ->)];
    [by left|].
  destruct (poll_loop_kills w cp cpid (html_of w)
              (Z.to_nat (timeout (args w))) 0 eq_refl) as [Hk|(Hk & Ht & Hp)];
    [by left|].
  right. split; [exact Ht|]. split; [exact Hp|].
  exists cp. split; [by apply launch_child with d cpid|exact Hk].
Qed.

(** ** Before and around the launch *)

(** X5: Every run, however it ends, first seeds the log with its header when
    the log file is absent and appends the task_started row; whatever
    else is written to a file comes after. *)
Theorem every_run_logs_task_started (w : World) :
  ∃ rest,
    file_io (trace (main w)) =
    (if path_exists w (job_logging w) then []
     else [WriteLogHeader (job_logging w)]) ++
    Log INFO (TaskStarted (project_code (args w)) (current_proc_hash w)
                (args w)) :: rest.
Proof.
  unfold file_io. rewrite main_omap. fold file_io.
  rewrite startup_file_io, <- app_assoc. eauto.
Qed.

(** X6: The html path handed to the graph collaborators: a given path that
    exists is kept; a missing, empty or non-existing path is replaced by
    the qc or warnings directory of the command; for any other command
    the path is left as given, existing or not. *)
Theorem html_path_choice (w : World) :
  (∀ p, html_path (args w) = Some p → p ≠ EmptyString →
        path_exists w p = true → html_of w = Some p) ∧
  (falsy_str (html_path (args w)) = true ∨
   path_exists w (default EmptyString (html_path (args w))) = false →
   (command (args w) = "qc" →
    html_of w = Some (com_qc_dir (paths_of (root_dir w)))) ∧
   (command (args w) = "warnings" →
    html_of w = Some (com_warnings_dir (paths_of (root_dir w)))) ∧
   (command (args w) ≠ "qc" → command (args w) ≠ "warnings" →
    html_of w = html_path (args w))).
Proof.
  unfold html_of, choose_html_path. split.
  - intros p Hp Hne He. rewrite Hp. cbn.
    rewrite bool_decide_eq_false_2 by exact Hne. by rewrite He.
  - intros Hbad. repeat split.
    + intros Hc. rewrite Hc.
      destruct (falsy_str (html_path (args w))) eqn:Hf; [done|].
      destruct Hbad as [Hb|Hb]; [discriminate|]. by rewrite Hb.
    + intros Hc. rewrite Hc.
      destruct (falsy_str (html_path (args w))) eqn:Hf; [done|].
      destruct Hbad as [Hb|Hb]; [discriminate|]. by rewrite Hb.
    + intros Hq Hw.
      rewrite !bool_decide_eq_false_2 by assumption.
      destruct (falsy_str _); [done|]. by destruct (negb _).
Qed.

Lemma html_path_choice_witness :
  html_path (args (hanging "qc" 5)) = None ∧
  html_of (hanging "qc" 5) = Some "C:\svc\commands\qc".
Proof.
  split; [reflexivity|].
  apply (proj2 (html_path_choice (hanging "qc" 5))); [by left|reflexivity].
Defined.

Lemma poll_loop_job_events w child_proc child_pid html secs :
  job_events (trace (poll_loop w child_proc child_pid html secs)) = [].
Proof.
  induction secs as [|sec rest IH]; [reflexivity|].
  cbn [poll_loop]. unfold tell, print, skip. cbn.
  destruct (bool_decide (poll_at w sec = _)); cbn;
    [by destruct (bool_decide _)|].
  destruct (bool_decide _); cbn; [|exact IH].
  destruct (falsy_int _); cbn; [|exact IH].
  by destruct (bool_decide _).
Qed.

Lemma launch_job_events w d child_proc child_pid :
  result (launch w d) = Ret (child_proc, child_pid) →
  ∃ fragment, d !! command (args w) = Some fragment ∧
    job_events (trace (launch w d)) =
    [WriteJournal (journal_file_path w)
       (if bool_decide (command (args w) = "audit")
        then audit_detach_template else detach_rps_template)
       (model_path (args w)) (model_file_name (args w)) fragment;
     WriteAddin (addin_file_path w) rps_addin_template (rvt_version (args w));
     Popen (rvt_version_path (args w)) (journal_file_path w) (root_dir w)].
Proof.
  unfold launch, getitem, first, call, raise, print, tell.
  destruct (d !! command (args w)) as [fragment|]; cbn; [|discriminate].
  intros H. exists fragment. split; [done|]. revert H.
  destruct (children w 0); cbn; [discriminate|].
  destruct (children w 1); cbn; [discriminate|].
  destruct (get_rvt_file_version w) as [v|]; cbn; [|discriminate].
  destruct (installed_rvt_detection w v); cbn; [|discriminate].
  done.
Qed.

(** X7: In every run that reaches the timeout loop the job is set up exactly
    once and in this order: the journal is written to
    [journals/<project_code>.txt] from the audit template for the audit
    command and the detach template otherwise, with the fragment the
    registry resolved; the add-in file is written for the given Revit
    version; then the given executable is started on the journal in the
    root directory.  Nothing is written to the journals directory after
    the process has started. *)
Theorem job_written_before_launch (w : World) (child_proc : proc)
    (child_pid : Z) :
  model_exists w = true →
  result (detect w ≫= launch w) = Ret (child_proc, child_pid) →
  ∃ d fragment,
    result (detect w) = Ret d ∧ d !! command (args w) = Some fragment ∧
    job_events (trace (main w)) =
    [WriteJournal (journal_file_path w)
       (if bool_decide (command (args w) = "audit")
        then audit_detach_template else detach_rps_template)
       (model_path (args w)) (model_file_name (args w)) fragment;
     WriteAddin (addin_file_path w) rps_addin_template (rvt_version (args w));
     Popen (rvt_version_path (args w)) (journal_file_path w) (root_dir w)].
Proof.
  intros Hm Hs.
  destruct (supervised_omap w _ _ Hm Hs
              (λ e, match e with
                    | WriteJournal _ _ _ _ _ | WriteAddin _ _ _
                    | Popen _ _ _ => Some e
                    | _ => None
                    end)) as (d & Hd & Hl & H); [done|].
  destruct (launch_job_events w d _ _ Hl) as (fragment & Hf & Hj).
  exists d, fragment. split; [exact Hd|]. split; [exact Hf|].
  unfold job_events. rewrite H. fold job_events.
  rewrite Hj, poll_loop_job_events.
  assert (job_events (trace (startup w)) = []) as ->
    by (unfold startup; destruct (path_exists _ (job_logging _));
        unfold choose_html_path, get_paths_dict, skip, print, tell;
        cbn; repeat (case_match; cbn); reflexivity).
  assert (job_events (trace (post_loop w (html_of w))) = []) as ->
    by (unfold post_loop, tell, skip;
        by destruct (bool_decide (command (args w) = "warnings"))).
  reflexivity.
Qed.

Lemma job_written_before_launch_witness :
  job_events (trace (main (hanging "audit" 5))) =
  [WriteJournal "C:\svc\journals\123_N.txt" audit_detach_template
     "C:/models/" "a.rvt" "' ";
   WriteAddin "C:\svc\journals\RevitPythonShell.addin" rps_addin_template
     "2017";
   Popen "C:\Revit\Revit.exe" "C:\svc\journals\123_N.txt" "C:\svc"].
Proof.
  destruct (job_written_before_launch (hanging "audit" 5) revit_exe 4200)
    as (d & fragment & Hd & Hf & Hj);
    [vm_compute; reflexivity|vm_compute; reflexivity|].
  assert (d = {[ "audit" := "' " ]}) as ->.
  { assert (result (detect (hanging "audit" 5)) = Ret {[ "audit" := "' " ]})
      as Hd' by (vm_compute; reflexivity).
    rewrite Hd' in Hd. by injection Hd. }
  assert (fragment = "' ") as ->.
  { assert (({[ "audit" := "' " ]} : gmap string string) !! "audit" =
            Some "' ") as Hf' by (vm_compute; reflexivity).
    change (command (args (hanging "audit" 5))) with "audit" in Hf.
    rewrite Hf' in Hf. by injection Hf. }
  exact Hj.
Defined.

(** ** The descriptor of the requested command *)

Section OneDirectory.
Variable w : World.
Variables (pre post : list dir_entry) (e : dir_entry).

Local Abbreviation cmd := (command (args w)).
Local Abbreviation init_py :=
  (commands_dir (paths_of (root_dir w)) +:+ "/" +:+ cmd +:+ "/__init__.py").
Local Abbreviation read :=
  (read_register w (rvt_version (args w)) (root_dir w) (project_code (args w))
     cmd).

Hypothesis listing : scandir_commands w = pre ++ e :: post.
Hypothesis others_before : Forall (λ e, entry_name e ≠ cmd) pre.
Hypothesis others_after : Forall (λ e, entry_name e ≠ cmd) post.
Hypothesis named : entry_name e = cmd.

Lemma detect_without_init :
  path_exists w init_py = false →
  detect w = Run SystemExit [Print MsgInitNotFound].
Proof.
  intros Hi. unfold detect, command_detection.
  rewrite listing, scan_skip by exact others_before. cbn [scan].
  rewrite named, bool_decide_eq_true_2 by reflexivity.
  by rewrite Hi.
Qed.

Lemma detect_without_register :
  path_exists w init_py = true → register e = None → detect w = mret ∅.
Proof.
  intros Hi Hr. unfold detect, command_detection.
  rewrite listing, scan_skip by exact others_before. cbn [scan].
  rewrite named, bool_decide_eq_true_2 by reflexivity.
  rewrite Hi, Hr. unfold skip. cbn.
  by rewrite scan_no_match by exact others_after.
Qed.

(** Resolution is the reading of the one register. *)
Lemma detect_reads_register reg :
  path_exists w init_py = true → register e = Some reg →
  detect w = read reg ∅.
Proof.
  intros Hi Hr. unfold detect, command_detection.
  rewrite listing, scan_skip by exact others_before. cbn [scan].
  rewrite named, bool_decide_eq_true_2 by reflexivity.
  rewrite Hi, Hr.
  pose proof (read_register_trace w (rvt_version (args w)) (root_dir w)
                (project_code (args w)) cmd reg ∅) as Ht.
  destruct (read_register _ _ _ _ _ _ _) as [[d| |] t]; cbn in Ht; subst t;
    unfold skip; cbn; [|done..].
  by rewrite scan_no_match by exact others_after.
Qed.
End OneDirectory.

(** What a run does once resolution has ended without a dict. *)
Lemma main_detect_fails (w : World) :
  (∀ d, result (detect w) ≠ Ret d) →
  result (main w) =
    match result (detect w) with
    | Raised x => Raised x
    | _ => SystemExit
    end ∧
  job_events (trace (main w)) = [].
Proof.
  intros H. rewrite main_result. unfold job_events.
  rewrite main_omap, detect_silent by done.
  assert (job_events (trace (startup w)) = []) as Hs
    by (unfold startup; destruct (path_exists _ (job_logging _));
        unfold choose_html_path, get_paths_dict, skip, print, tell;
        cbn; repeat (case_match; cbn); reflexivity).
  unfold job_events in Hs. rewrite Hs.
  destruct (result (detect w)) as [d| |]; [by destruct (H d)|done..].
Qed.

(** What a run does when resolution returns a dict without the command. *)
Lemma main_without_fragment (w : World) (d : gmap string string) :
  result (detect w) = Ret d → d !! command (args w) = None →
  model_exists w = true →
  result (main w) = Raised KeyError ∧ job_events (trace (main w)) = [].
Proof.
  intros Hd Hn Hm. rewrite main_result. unfold job_events.
  rewrite main_omap, detect_silent, Hd by done. unfold model_branch.
  rewrite Hm, supervise_result, supervise_omap, launch_key_error by exact Hn.
  assert (job_events (trace (startup w)) = []) as Hs
    by (unfold startup; destruct (path_exists _ (job_logging _));
        unfold choose_html_path, get_paths_dict, skip, print, tell;
        cbn; repeat (case_match; cbn); reflexivity).
  unfold job_events in Hs. by rewrite Hs.
Qed.

(** X8: When the directory of the requested command has no [__init__.py], the
    script prints that and exits at once: no job is written and nothing
    is started. *)
Theorem missing_init_exits (w : World) (pre post : list dir_entry)
    (e : dir_entry) :
  scandir_commands w = pre ++ e :: post →
  Forall (λ e, entry_name e ≠ command (args w)) pre →
  entry_name e = command (args w) →
  path_exists w (commands_dir (paths_of (root_dir w)) +:+ "/" +:+
                 command (args w) +:+ "/__init__.py") = false →
  detect w = Run SystemExit [Print MsgInitNotFound] ∧
  result (main w) = SystemExit ∧
  job_events (trace (main w)) = [].
Proof.
  intros Hl Hpre Hn Hi.
  pose proof (detect_without_init w pre post e Hl Hpre Hn Hi) as Hd.
  split; [exact Hd|].
  destruct (main_detect_fails w) as [Hr Hj]; [by rewrite Hd|].
  by rewrite Hr, Hd.
Qed.

Lemma missing_init_exits_witness :
  result (main (sample_world "qc" 5 sample_commands ["C:/models/a.rvt"]
                  [revit_exe] never_exits)) = SystemExit.
Proof.
  refine (proj1 (proj2 (missing_init_exits
    (sample_world "qc" 5 sample_commands ["C:/models/a.rvt"] [revit_exe]
       never_exits)
    [{| entry_name := "audit";
        register := Some (sample_register "audit" "rvt_journal_writer" "audit") |}]
    [{| entry_name := "warnings";
        register := Some (sample_register "warnings" "rvt_journal_writer"
                            "warnings_export_command") |}]
    {| entry_name := "qc";
       register := Some (sample_register "qc" "get_rps_button" "qc_model") |}
    eq_refl _ eq_refl eq_refl))).
  repeat constructor; discriminate.
Defined.

(** X9: A register without the key [name] makes resolution, and the run, end
    with a key error; so does a failing button lookup with the error of
    the lookup. *)
Theorem descriptor_errors_raise (w : World) (pre post : list dir_entry)
    (e : dir_entry) (reg : gmap string string) :
  scandir_commands w = pre ++ e :: post →
  Forall (λ e, entry_name e ≠ command (args w)) pre →
  Forall (λ e, entry_name e ≠ command (args w)) post →
  entry_name e = command (args w) →
  path_exists w (commands_dir (paths_of (root_dir w)) +:+ "/" +:+
                 command (args w) +:+ "/__init__.py") = true →
  register e = Some reg →
  (reg !! "name" = None →
   result (detect w) = Raised KeyError ∧ result (main w) = Raised KeyError) ∧
  (∀ button,
     reg !! "name" = Some (command (args w)) →
     reg !! "get_rps_button" = Some button →
     get_rps_button w (rvt_version (args w)) button = None →
     result (detect w) = Raised CollaboratorError ∧
     result (main w) = Raised CollaboratorError).
Proof.
  intros Hl Hpre Hpost Hn Hi Hr.
  pose proof (detect_reads_register w pre post e Hl Hpre Hpost Hn reg Hi Hr)
    as Hd.
  split.
  - intros Hname.
    assert (result (detect w) = Raised KeyError) as Hres
      by (rewrite Hd; unfold read_register, getitem; by rewrite Hname).
    split; [exact Hres|].
    destruct (main_detect_fails w) as [Hm _]; [by rewrite Hres|].
    by rewrite Hm, Hres.
  - intros button Hname Hb Hfail.
    assert (result (detect w) = Raised CollaboratorError) as Hres.
    { rewrite Hd. unfold read_register, getitem, call.
      rewrite Hname, Hb, Hfail. cbn.
      by rewrite bool_decide_eq_true_2. }
    split; [exact Hres|].
    destruct (main_detect_fails w) as [Hm _]; [by rewrite Hres|].
    by rewrite Hm, Hres.
Qed.

Lemma descriptor_errors_raise_witness :
  result (main (sample_world "broken" 5
                  [{| entry_name := "broken";
                      register := Some {[ "rvt_journal_writer" := "audit" ]} |}]
                  ["C:\svc\commands/broken/__init__.py"] [revit_exe]
                  never_exits)) = Raised KeyError.
Proof.
  refine (proj2 (proj1 (descriptor_errors_raise
    (sample_world "broken" 5
       [{| entry_name := "broken";
           register := Some {[ "rvt_journal_writer" := "audit" ]} |}]
       ["C:\svc\commands/broken/__init__.py"] [revit_exe] never_exits)
    [] [] {| entry_name := "broken";
             register := Some {[ "rvt_journal_writer" := "audit" ]} |}
    {[ "rvt_journal_writer" := "audit" ]}
    eq_refl (Forall_nil_2 _) (Forall_nil_2 _) eq_refl eq_refl eq_refl) _)).
  vm_compute. reflexivity.
Defined.

(** X10: A module without a [register], or whose register names another
    command than its directory, resolves to an empty dict without any
    complaint; with the model present the run then ends with a key error
    before the job is written. *)
Theorem unregistered_module_resolves_nothing (w : World)
    (pre post : list dir_entry) (e : dir_entry) :
  scandir_commands w = pre ++ e :: post →
  Forall (λ e, entry_name e ≠ command (args w)) pre →
  Forall (λ e, entry_name e ≠ command (args w)) post →
  entry_name e = command (args w) →
  path_exists w (commands_dir (paths_of (root_dir w)) +:+ "/" +:+
                 command (args w) +:+ "/__init__.py") = true →
  match register e with
  | None => True
  | Some reg => ∃ n, reg !! "name" = Some n ∧ n ≠ command (args w)
  end →
  detect w = mret ∅ ∧
  (model_exists w = true →
   result (main w) = Raised KeyError ∧ job_events (trace (main w)) = []).
Proof.
  intros Hl Hpre Hpost Hn Hi Hr.
  assert (detect w = mret ∅) as Hd.
  { destruct (register e) as [reg|] eqn:Hreg.
    - destruct Hr as (n & Hname & Hne).
      rewrite (detect_reads_register w pre post e Hl Hpre Hpost Hn reg Hi Hreg).
      unfold read_register, getitem. rewrite Hname. cbn.
      by rewrite bool_decide_eq_false_2.
    - by apply detect_without_register with pre post e. }
  split; [exact Hd|]. intros Hm.
  apply main_without_fragment with ∅; [by rewrite Hd|apply lookup_empty|done].
Qed.

Lemma unregistered_module_resolves_nothing_witness :
  result (main (sample_world "dwf" 5
                  [{| entry_name := "dwf";
                      register := Some {[ "name" := "dwf_export" ]} |}]
                  sample_files [revit_exe] never_exits)) = Raised KeyError.
Proof.
  refine (proj1 (proj2 (unregistered_module_resolves_nothing
    (sample_world "dwf" 5
       [{| entry_name := "dwf";
           register := Some {[ "name" := "dwf_export" ]} |}]
       sample_files [revit_exe] never_exits)
    [] [] {| entry_name := "dwf";
             register := Some {[ "name" := "dwf_export" ]} |}
    eq_refl (Forall_nil_2 _) (Forall_nil_2 _) eq_refl _ _) _)).
  - vm_compute. reflexivity.
  - exists "dwf_export". split; [vm_compute; reflexivity|discriminate].
  - vm_compute. reflexivity.
Defined.

(** X11: A register that declares both a button and a journal writer: the
    fragment of a known writer kind replaces the button's, an unknown
    kind leaves the button's in place. *)
Theorem journal_writer_overrides_button (w : World)
    (pre post : list dir_entry) (e : dir_entry) (reg : gmap string string)
    (button rps_button kind : string) :
  scandir_commands w = pre ++ e :: post →
  Forall (λ e, entry_name e ≠ command (args w)) pre →
  Forall (λ e, entry_name e ≠ command (args w)) post →
  entry_name e = command (args w) →
  path_exists w (commands_dir (paths_of (root_dir w)) +:+ "/" +:+
                 command (args w) +:+ "/__init__.py") = true →
  register e = Some reg →
  reg !! "name" = Some (command (args w)) →
  reg !! "get_rps_button" = Some button →
  get_rps_button w (rvt_version (args w)) button = Some rps_button →
  reg !! "rvt_journal_writer" = Some kind →
  detect w =
    mret {[ command (args w) :=
      if bool_decide (kind = "warnings_export_command") then
        warnings_export_command w (warnings_dir (paths_of (root_dir w)))
          (project_code (args w))
      else if bool_decide (kind = "audit") then "' "
      else rps_button ]}.
Proof.
  intros Hl Hpre Hpost Hn Hi Hr Hname Hb Hrps Hk.
  rewrite (detect_reads_register w pre post e Hl Hpre Hpost Hn reg Hi Hr).
  unfold read_register, getitem, call. rewrite Hname, Hb, Hrps, Hk. cbn.
  rewrite bool_decide_eq_true_2 by reflexivity.
  destruct (bool_decide (kind = "warnings_export_command")); cbn;
    [by rewrite insert_insert_eq|].
  destruct (bool_decide (kind = "audit")); cbn;
    [by rewrite insert_insert_eq|done].
Qed.

Lemma journal_writer_overrides_button_witness :
  detect (sample_world "both" 5
            [{| entry_name := "both";
                register := Some (<["get_rps_button" := "b"]>
                  (sample_register "both" "rvt_journal_writer" "audit")) |}]
            ["C:\svc\commands/both/__init__.py"] [revit_exe] never_exits) =
  mret {[ "both" := "' " ]}.
Proof.
  refine (journal_writer_overrides_button
    (sample_world "both" 5
       [{| entry_name := "both";
           register := Some (<["get_rps_button" := "b"]>
             (sample_register "both" "rvt_journal_writer" "audit")) |}]
       ["C:\svc\commands/both/__init__.py"] [revit_exe] never_exits)
    [] [] {| entry_name := "both";
             register := Some (<["get_rps_button" := "b"]>
               (sample_register "both" "rvt_journal_writer" "audit")) |}
    (<["get_rps_button" := "b"]>
       (sample_register "both" "rvt_journal_writer" "audit"))
    "b" "rps b" "audit"
    eq_refl (Forall_nil_2 _) (Forall_nil_2 _) eq_refl _ eq_refl _ _ eq_refl _);
    vm_compute; reflexivity.
Defined.

(** ** Failures between the launch and the loop *)

(** A run whose [launch] raises ends with that exception, having done
    what [launch] did and nothing of the supervision. *)
Lemma main_launch_raises (w : World) (d : gmap string string) (x : exn) :
  model_exists w = true →
  result (detect w) = Ret d →
  result (launch w d) = Raised x →
  result (main w) = Raised x ∧
  launched (trace (main w)) = launched (trace (launch w d)) ∧
  polled (trace (main w)) = [] ∧
  killed (trace (main w)) = [] ∧
  hooks (trace (main w)) = [] ∧
  logged (trace (main w)) =
    [(INFO, TaskStarted (project_code (args w)) (current_proc_hash w) (args w))].
Proof.
  intros Hm Hd Hr.
  rewrite main_result. unfold launched, polled, killed, hooks, logged.
  rewrite !main_omap, !detect_silent, Hd by done. unfold model_branch.
  rewrite Hm, supervise_result, !supervise_omap, Hr. cbn [app].
  rewrite !app_nil_r.
  fold launched polled killed hooks logged.
  rewrite launch_polled, launch_killed, launch_hooks, launch_logged.
  rewrite startup_launched, startup_polled, startup_killed, startup_hooks,
    startup_logged.
  done.
Qed.

Lemma launch_detection_fails (w : World) (d : gmap string string)
    (fragment : string) (c0 c1 : proc) (l0 l1 : list proc) :
  d !! command (args w) = Some fragment →
  children w 0 = c0 :: l0 →
  children w 1 = c1 :: l1 →
  get_rvt_file_version w = None ∨
  (∃ v, get_rvt_file_version w = Some v ∧ installed_rvt_detection w v = None) →
  result (launch w d) = Raised CollaboratorError ∧
  launched (trace (launch w d)) =
    [Popen (rvt_version_path (args w)) (journal_file_path w) (root_dir w)].
Proof.
  intros Hd H0 H1 Hfail. unfold launch, getitem, first, call.
  rewrite Hd, H0, H1.
  destruct Hfail as [->|(v & -> & Hi)]; [done|].
  cbn. by rewrite Hi.
Qed.

(** X12: When the version of the model cannot be read, or no install path is
    found for it, the exception ends the run after Revit was started:
    the started process is never polled and never killed, and no result
    is logged. *)
Theorem detection_failure_orphans_process (w : World)
    (d : gmap string string) (fragment : string) (c0 c1 : proc)
    (l0 l1 : list proc) :
  model_exists w = true →
  result (detect w) = Ret d →
  d !! command (args w) = Some fragment →
  children w 0 = c0 :: l0 →
  children w 1 = c1 :: l1 →
  get_rvt_file_version w = None ∨
  (∃ v, get_rvt_file_version w = Some v ∧ installed_rvt_detection w v = None) →
  result (main w) = Raised CollaboratorError ∧
  launched (trace (main w)) =
    [Popen (rvt_version_path (args w)) (journal_file_path w) (root_dir w)] ∧
  polled (trace (main w)) = [] ∧
  killed (trace (main w)) = [] ∧
  hooks (trace (main w)) = [] ∧
  logged (trace (main w)) =
    [(INFO, TaskStarted (project_code (args w)) (current_proc_hash w) (args w))].
Proof.
  intros Hm Hd Hf H0 H1 Hfail.
  destruct (launch_detection_fails w d fragment c0 c1 l0 l1 Hf H0 H1 Hfail)
    as [Hr Hl].
  destruct (main_launch_raises w d _ Hm Hd Hr) as (? & Hl' & ? & ? & ? & ?).
  rewrite Hl in Hl'. done.
Qed.

(** ** Patterns of character classes *)

Local Abbreviation chars := String.list_ascii_of_string.
Local Abbreviation text := String.string_of_list_ascii.

Lemma chars_app (a b : string) : chars (a +:+ b) = chars a ++ chars b.
Proof.
  induction a as [|c a IH]; [reflexivity|].
  change (chars (String c (a +:+ b)) = c :: chars a ++ chars b).
  cbn. by rewrite IH.
Qed.

Lemma text_app (a b : list ascii) : text (a ++ b) = text a +:+ text b.
Proof.
  induction a as [|c a IH]; [reflexivity|].
  change (String c (text (a ++ b)) = String c (text a +:+ text b)).
  by rewrite IH.
Qed.

Lemma digit_not_space c : py_isdigit c = true → py_isspace c = false.
Proof. destruct c as [[] [] [] [] [] [] [] []]; vm_compute; congruence. Qed.

Lemma match_classes_Some cls s m :
  match_classes cls s = Some m →
  Forall2 (λ p c, p c = true) cls m ∧ ∃ rest, s = m ++ rest.
Proof.
  revert s m. induction cls as [|p cls IH]; intros s m; cbn.
  - intros [= <-]. split; [constructor|by exists s].
  - destruct s as [|c s]; [discriminate|].
    destruct (p c) eqn:Hp; [|discriminate].
    destruct (match_classes cls s) as [m'|] eqn:Hm; [|discriminate].
    cbn. intros [= <-]. destruct (IH s m' Hm) as [Hf [rest ->]].
    split; [by constructor|by exists rest].
Qed.

Lemma match_classes_complete cls m rest :
  Forall2 (λ p c, p c = true) cls m → match_classes cls (m ++ rest) = Some m.
Proof.
  induction 1 as [|p c cls m Hp _ IH]; [reflexivity|].
  cbn. by rewrite Hp, IH.
Qed.

(** The match found is at the leftmost position that has one. *)
Lemma search_classes_Some cls s m :
  search_classes cls s = Some m →
  ∃ pre post, s = pre ++ m ++ post ∧
    Forall2 (λ p c, p c = true) cls m ∧
    ∀ skipped rest, pre = skipped ++ rest → rest ≠ [] →
      match_classes cls (rest ++ m ++ post) = None.
Proof.
  induction s as [|c s IH]; cbn.
  - destruct (match_classes cls []) as [m'|] eqn:Hm; [|discriminate].
    intros [= <-]. destruct (match_classes_Some _ _ _ Hm) as [Hf [rest Hr]].
    exists [], rest. split; [done|]. split; [done|].
    intros skipped rest' Hnil ?. by destruct skipped, rest'.
  - destruct (match_classes cls (c :: s)) as [m'|] eqn:Hm.
    + intros [= <-]. destruct (match_classes_Some _ _ _ Hm) as [Hf [rest Hr]].
      exists [], rest. split; [done|]. split; [done|].
      intros skipped rest' Hnil ?. by destruct skipped, rest'.
    + intros Hs. destruct (IH Hs) as (pre & post & -> & Hf & Hleft).
      exists (c :: pre), post. split; [done|]. split; [done|].
      intros skipped rest Hpre Hne.
      destruct skipped as [|c' skipped]; cbn in Hpre.
      * subst rest. exact Hm.
      * injection Hpre as -> ->. by apply Hleft with skipped.
Qed.

Lemma search_classes_unfold cls s :
  search_classes cls s =
  match match_classes cls s with
  | Some m => Some m
  | None => match s with _ :: s' => search_classes cls s' | [] => None end
  end.
Proof. by destruct s. Qed.

Lemma search_classes_is_Some cls pre m post :
  Forall2 (λ p c, p c = true) cls m →
  is_Some (search_classes cls (pre ++ m ++ post)).
Proof.
  intros Hf. induction pre as [|c pre IH]; cbn [app].
  - rewrite search_classes_unfold, match_classes_complete by done. eauto.
  - rewrite search_classes_unfold.
    destruct (match_classes cls (c :: pre ++ m ++ post)); eauto.
Qed.

(** Where no earlier position matches, the search finds the given match. *)
Lemma search_classes_at cls pre m post :
  Forall2 (λ p c, p c = true) cls m →
  (∀ skipped rest, pre = skipped ++ rest → rest ≠ [] →
     match_classes cls (rest ++ m ++ post) = None) →
  search_classes cls (pre ++ m ++ post) = Some m.
Proof.
  intros Hf. induction pre as [|c pre IH]; intros Hleft; cbn [app].
  - by rewrite search_classes_unfold, match_classes_complete.
  - assert (match_classes cls (c :: pre ++ m ++ post) = None) as H0
      by (by apply (Hleft [] (c :: pre))).
    rewrite search_classes_unfold, H0.
    apply IH. intros skipped rest -> Hne. by apply (Hleft (c :: skipped)).
Qed.

(** ** get_rvt_file_version *)

Lemma is_year_text y :
  length y = 4%nat → Forall (λ c, py_isdigit c = true) y → is_year (text y).
Proof.
  intros Hl Hd. unfold is_year.
  by rewrite String.list_ascii_of_string_of_list_ascii.
Qed.

Lemma year_match m :
  Forall2 (λ p c, p c = true) year_pattern m →
  length m = 4%nat ∧ Forall (λ c, py_isdigit c = true) m.
Proof.
  intros H. split; [by rewrite <- (Forall2_length _ _ _ H)|].
  unfold year_pattern in H.
  repeat (apply Forall2_cons_inv_l in H as (? & ? & ? & H & ->)).
  apply Forall2_nil_inv_l in H as ->. by repeat constructor.
Qed.

(** What [r" \d{4} "] matches, and what [strip] leaves of it. *)
Lemma spaced_year_match m :
  Forall2 (λ p c, p c = true) spaced_year_pattern m ↔
  ∃ y, m = space_char :: y ++ [space_char] ∧
       length y = 4%nat ∧ Forall (λ c, py_isdigit c = true) y.
Proof.
  unfold spaced_year_pattern, is_char. split.
  - intros H.
    repeat (apply Forall2_cons_inv_l in H as (? & ? & ? & H & ->)).
    apply Forall2_nil_inv_l in H as ->.
    repeat match goal with
           | H : bool_decide _ = true |- _ => apply bool_decide_eq_true_1 in H
           end; subst.
    eexists [_; _; _; _]. split; [reflexivity|]. split; [done|].
    by repeat constructor.
  - intros (y & -> & Hl & Hd).
    destruct y as [|a [|b [|c [|d [|]]]]]; try discriminate.
    repeat match goal with
           | H : Forall _ (_ :: _) |- _ => apply Forall_cons_1 in H as [? H]
           end.
    repeat constructor; try done; by apply bool_decide_eq_true_2.
Qed.

Lemma strip_spaced_year y :
  length y = 4%nat → Forall (λ c, py_isdigit c = true) y →
  strip (space_char :: y ++ [space_char]) = y.
Proof.
  intros Hl Hd.
  destruct y as [|a [|b [|c [|d [|]]]]]; try discriminate.
  repeat match goal with
         | H : Forall _ (_ :: _) |- _ => apply Forall_cons_1 in H as [? H]
         end.
  unfold strip. cbn [lstrip app].
  change (py_isspace space_char) with true. cbn match.
  rewrite (digit_not_space a) by done.
  change (reverse [a; b; c; d; space_char]) with [space_char; d; c; b; a].
  cbn [lstrip]. change (py_isspace space_char) with true. cbn match.
  by rewrite (digit_not_space d).
Qed.

Lemma text_inj a b : text a = text b → a = b.
Proof.
  intros H. apply (f_equal chars) in H.
  by rewrite !String.list_ascii_of_string_of_list_ascii in H.
Qed.

Lemma chars_inj a b : chars a = chars b → a = b.
Proof.
  intros H. apply (f_equal text) in H.
  by rewrite !String.string_of_list_ascii_of_string in H.
Qed.

(** X13: When [get_rvt_file_version] returns a version, the file is an OLE
    file and the version is four digits that stand between two spaces in
    the text of the BasicFileInfo stream, at the first position where the
    pattern matches. *)
Theorem file_version_sound (f : rvt_file) (v : string) :
  Autodetect.get_rvt_file_version f = Autodetect.FileVersion v →
  is_ole_file f = true ∧ is_year v ∧
  ∃ before after,
    basic_file_info f =
      Some (before +:+ space_string +:+ v +:+ space_string +:+ after) ∧
    ∀ skipped rest, before = skipped +:+ rest → rest ≠ EmptyString →
      match_classes spaced_year_pattern
        (chars (rest +:+ space_string +:+ v +:+ space_string +:+ after)) =
      None.
Proof.
  unfold Autodetect.get_rvt_file_version.
  destruct (is_ole_file f); [|discriminate].
  destruct (basic_file_info f) as [info|]; [|discriminate].
  destruct (search_classes _ _) as [m|] eqn:Hs; [|discriminate].
  intros [= <-]. split; [done|].
  destruct (search_classes_Some _ _ _ Hs) as (pre & post & Hinfo & Hm & Hleft).
  apply spaced_year_match in Hm as (y & -> & Hl & Hd).
  rewrite strip_spaced_year by done.
  split; [by apply is_year_text|].
  exists (text pre), (text post). split.
  - f_equal. apply chars_inj.
    rewrite Hinfo, !chars_app, !String.list_ascii_of_string_of_list_ascii.
    cbn. by rewrite <- app_assoc.
  - intros skipped rest Hpre Hne.
    rewrite !chars_app, !String.list_ascii_of_string_of_list_ascii.
    specialize (Hleft (chars skipped) (chars rest)).
    cbn in Hleft. rewrite <- app_assoc in Hleft. apply Hleft.
    + apply text_inj. by rewrite text_app, !String.string_of_list_ascii_of_string.
    + intros Hnil. apply Hne. apply chars_inj. by rewrite Hnil.
Qed.

Lemma file_version_sound_witness :
  Autodetect.get_rvt_file_version model_2017 = Autodetect.FileVersion "2017" ∧
  is_year "2017".
Proof.
  assert (Autodetect.get_rvt_file_version model_2017 =
          Autodetect.FileVersion "2017") as H by (vm_compute; reflexivity).
  split; [exact H|].
  exact (proj1 (proj2 (file_version_sound model_2017 "2017" H))).
Defined.

(** X14: [get_rvt_file_version] fails on the missing match (a TypeError in the
    script) exactly when the file is an OLE file whose BasicFileInfo text
    has no four digits between two spaces; a file that is no OLE file
    makes it return None instead. *)
Theorem no_version_iff (f : rvt_file) :
  (Autodetect.get_rvt_file_version f = Autodetect.NoVersionFound ↔
   is_ole_file f = true ∧
   ∃ info, basic_file_info f = Some info ∧
     ∀ before y after,
       info = before +:+ space_string +:+ y +:+ space_string +:+ after →
       ¬ is_year y) ∧
  (Autodetect.get_rvt_file_version f = Autodetect.NotOleFile ↔
   is_ole_file f = false).
Proof.
  unfold Autodetect.get_rvt_file_version. split.
  - destruct (is_ole_file f); [|split; [discriminate|by intros [[=] _]]].
    destruct (basic_file_info f) as [info|];
      [|split; [discriminate|by intros [_ (? & [=] & _)]]].
    destruct (search_classes _ _) as [m|] eqn:Hs.
    + split; [discriminate|]. intros [_ (info' & [= <-] & Hno)]. exfalso.
      destruct (search_classes_Some _ _ _ Hs) as (pre & post & Hinfo & Hm & _).
      apply spaced_year_match in Hm as (y & -> & Hl & Hd).
      apply (Hno (text pre) (text y) (text post)); [|by apply is_year_text].
      apply chars_inj.
      rewrite Hinfo, !chars_app, !String.list_ascii_of_string_of_list_ascii.
      cbn. by rewrite <- app_assoc.
    + split; [|done]. intros _. split; [done|]. exists info. split; [done|].
      intros before y after -> [Hl Hd].
      assert (is_Some (search_classes spaced_year_pattern
                (chars (before +:+ space_string +:+ y +:+ space_string +:+
                        after)))) as [m Hm]; [|congruence].
      rewrite !chars_app. change (chars space_string) with [space_char].
      replace (chars before ++ [space_char] ++ chars y ++ [space_char] ++
               chars after)
        with (chars before ++ (space_char :: chars y ++ [space_char]) ++
              chars after)
        by (cbn; by rewrite <- app_assoc).
      apply search_classes_is_Some, spaced_year_match. eauto.
  - destruct (is_ole_file f); [|done].
    split; [|discriminate].
    destruct (basic_file_info f); [|discriminate].
    by destruct (search_classes _ _).
Qed.

Lemma no_version_iff_witness :
  is_ole_file text_file = false ∧
  Autodetect.get_rvt_file_version text_file = Autodetect.NotOleFile.
Proof.
  split; [reflexivity|].
  by apply (proj2 (no_version_iff text_file)).
Defined.

(** ** Matching by derivatives *)

Lemma lang_cat_inv r1 r2 s :
  lang (Cat r1 r2) s → ∃ s1 s2, s = s1 ++ s2 ∧ lang r1 s1 ∧ lang r2 s2.
Proof. inversion 1; subst; eauto. Qed.

Lemma lang_alt_inv r1 r2 s : lang (Alt r1 r2) s → lang r1 s ∨ lang r2 s.
Proof. inversion 1; subst; eauto. Qed.

Lemma lang_eps_inv s : lang Eps s → s = [].
Proof. by inversion 1. Qed.

Lemma lang_cls_inv p s : lang (Cls p) s → ∃ c, s = [c] ∧ p c = true.
Proof. inversion 1; subst; eauto. Qed.

Lemma lang_void_inv s : ¬ lang Void s.
Proof. inversion 1. Qed.

(** A non-empty text of a repetition starts with a non-empty text of the
    repeated expression. *)
Lemma lang_star_cons r c s :
  lang (Star r) (c :: s) →
  ∃ s1 s2, s = s1 ++ s2 ∧ lang r (c :: s1) ∧ lang (Star r) s2.
Proof.
  intros H. remember (Star r) as r' eqn:Hr. remember (c :: s) as s' eqn:Hs.
  revert s Hs. induction H as [| | | | | |r0 s1 s2 H1 _ H2 IH2]; try discriminate.
  injection Hr as ->. intros s Hs.
  destruct s1 as [|c1 s1]; cbn in Hs.
  - by apply IH2.
  - injection Hs as -> <-. eauto.
Qed.

Lemma nullable_lang r : nullable r = true ↔ lang r [].
Proof.
  induction r as [| |p|r1 IH1 r2 IH2|r1 IH1 r2 IH2|r IH]; cbn.
  - split; [discriminate|]. intros H. by apply lang_void_inv in H.
  - split; [constructor|done].
  - split; [discriminate|]. intros H.
    by apply lang_cls_inv in H as (c & [=] & _).
  - rewrite andb_true_iff, IH1, IH2. split.
    + intros [H1 H2]. by apply (lang_cat r1 r2 [] []).
    + intros H. apply lang_cat_inv in H as (s1 & s2 & Hs & H1 & H2).
      symmetry in Hs. apply app_eq_nil in Hs as [-> ->]. done.
  - rewrite orb_true_iff, IH1, IH2. split.
    + intros [H|H]; [by apply lang_alt_l|by apply lang_alt_r].
    + apply lang_alt_inv.
  - split; [constructor|done].
Qed.

Lemma deriv_lang c r : ∀ s, lang (deriv c r) s ↔ lang r (c :: s).
Proof.
  induction r as [| |p|r1 IH1 r2 IH2|r1 IH1 r2 IH2|r IH]; intros s; cbn.
  - split; intros H; by apply lang_void_inv in H.
  - split; intros H; [by apply lang_void_inv in H|by apply lang_eps_inv in H].
  - destruct (p c) eqn:Hp; split; intros H.
    + apply lang_eps_inv in H as ->. by constructor.
    + apply lang_cls_inv in H as (c' & [= <- ->] & _). constructor.
    + by apply lang_void_inv in H.
    + apply lang_cls_inv in H as (c' & [= <- ->] & Hp'). congruence.
  - assert (lang (Cat (deriv c r1) r2) s ↔
            ∃ s1 s2, s = s1 ++ s2 ∧ lang r1 (c :: s1) ∧ lang r2 s2) as Hcat.
    { split.
      - intros H. apply lang_cat_inv in H as (s1 & s2 & -> & H1 & H2).
        apply IH1 in H1. eauto.
      - intros (s1 & s2 & -> & H1 & H2). apply lang_cat; [by apply IH1|done]. }
    destruct (nullable r1) eqn:Hn.
    + split.
      * intros H. apply lang_alt_inv in H as [H|H].
        -- apply Hcat in H as (s1 & s2 & -> & H1 & H2).
           by apply (lang_cat r1 r2 (c :: s1) s2).
        -- apply IH2 in H. apply nullable_lang in Hn.
           by apply (lang_cat r1 r2 [] (c :: s)).
      * intros H. apply lang_cat_inv in H as (s1 & s2 & Hs & H1 & H2).
        destruct s1 as [|c1 s1]; cbn in Hs.
        -- subst s2. apply lang_alt_r. by apply IH2.
        -- injection Hs as <- ->. apply lang_alt_l, Hcat. eauto.
    + rewrite Hcat. split.
      * intros (s1 & s2 & -> & H1 & H2). by apply (lang_cat r1 r2 (c :: s1) s2).
      * intros H. apply lang_cat_inv in H as (s1 & s2 & Hs & H1 & H2).
        destruct s1 as [|c1 s1]; cbn in Hs.
        -- apply nullable_lang in H1. congruence.
        -- injection Hs as <- ->. eauto.
  - split.
    + intros H. apply lang_alt_inv in H as [H|H];
        [apply lang_alt_l; by apply IH1|apply lang_alt_r; by apply IH2].
    + intros H. apply lang_alt_inv in H as [H|H];
        [apply lang_alt_l; by apply IH1|apply lang_alt_r; by apply IH2].
  - split.
    + intros H. apply lang_cat_inv in H as (s1 & s2 & -> & H1 & H2).
      apply IH in H1. by apply (lang_star_app r (c :: s1) s2).
    + intros H. apply lang_star_cons in H as (s1 & s2 & -> & H1 & H2).
      apply lang_cat; [by apply IH|done].
Qed.

(** The derivative matcher decides the texts of the expression. *)
Lemma full_match_lang s : ∀ r, full_match r s = true ↔ lang r s.
Proof.
  induction s as [|c s IH]; intros r; cbn.
  - apply nullable_lang.
  - rewrite IH. apply deriv_lang.
Qed.

Lemma lang_star_cls p s :
  lang (Star (Cls p)) s ↔ Forall (λ c, p c = true) s.
Proof.
  split.
  - induction s as [|c s IH]; [constructor|].
    intros H. apply lang_star_cons in H as (s1 & s2 & -> & H1 & H2).
    apply lang_cls_inv in H1 as (c' & [= -> ->] & Hp).
    constructor; [done|]. by apply IH.
  - induction 1 as [|c s Hp _ IH]; [constructor|].
    apply (lang_star_app (Cls p) [c] s); [by constructor|done].
Qed.

Lemma lang_lit l s : lang (Lit l) s ↔ s = l.
Proof.
  revert s. induction l as [|c l IH]; intros s; cbn.
  - split; [apply lang_eps_inv|intros ->; constructor].
  - split.
    + intros H. apply lang_cat_inv in H as (s1 & s2 & -> & H1 & H2).
      apply lang_cls_inv in H1 as (c' & -> & Hc).
      apply bool_decide_eq_true_1 in Hc as ->. apply IH in H2 as ->. done.
    + intros ->. apply (lang_cat _ _ [c] l); [|by apply IH].
      constructor. by apply bool_decide_eq_true_2.
Qed.

Lemma lang_opt r s : lang (Opt r) s ↔ lang r s ∨ s = [].
Proof.
  unfold Opt. split.
  - intros H. apply lang_alt_inv in H as [H|H]; [by left|].
    right. by apply lang_eps_inv.
  - intros [H| ->]; [by apply lang_alt_l|apply lang_alt_r; constructor].
Qed.

Lemma lang_char c s : lang (Cls (is_char c)) s ↔ s = [c].
Proof.
  split.
  - intros H. apply lang_cls_inv in H as (c' & -> & Hc).
    by apply bool_decide_eq_true_1 in Hc as ->.
  - intros ->. constructor. by apply bool_decide_eq_true_2.
Qed.

Lemma lang_four_digits s :
  lang (Cat (Cls py_isdigit) (Cat (Cls py_isdigit)
       (Cat (Cls py_isdigit) (Cls py_isdigit)))) s ↔
  length s = 4%nat ∧ Forall (λ c, py_isdigit c = true) s.
Proof.
  split.
  - intros H.
    apply lang_cat_inv in H as (s1 & ? & -> & H1 & H).
    apply lang_cat_inv in H as (s2 & ? & -> & H2 & H).
    apply lang_cat_inv in H as (s3 & s4 & -> & H3 & H4).
    apply lang_cls_inv in H1 as (? & -> & ?), H2 as (? & -> & ?),
      H3 as (? & -> & ?), H4 as (? & -> & ?).
    split; [done|]. by repeat constructor.
  - intros [Hl Hd].
    destruct s as [|a [|b [|c [|d [|]]]]]; try discriminate.
    repeat match goal with
           | H : Forall _ (_ :: _) |- _ => apply Forall_cons_1 in H as [? H]
           end.
    apply (lang_cat _ _ [a] [b; c; d]); [by constructor|].
    apply (lang_cat _ _ [b] [c; d]); [by constructor|].
    apply (lang_cat _ _ [c] [d]); by constructor.
Qed.

(** The names the Autodesk pattern accepts: ["Autodesk Revit"], an
    optional space, an optional word without white space followed by a
    space, four digits, and nothing more than one closing newline. *)
Lemma adsk_lang s :
  match_to_end adsk_pattern s = true ↔
  ∃ sp word y nl,
    s = chars "Autodesk Revit" ++ sp ++ word ++ y ++ nl ∧
    (sp = [] ∨ sp = [space_char]) ∧
    (word = [] ∨
     ∃ w, word = w ++ [space_char] ∧ Forall (λ c, py_isspace c = false) w) ∧
    length y = 4%nat ∧ Forall (λ c, py_isdigit c = true) y ∧
    (nl = [] ∨ nl = [newline_char]).
Proof.
  unfold match_to_end, adsk_pattern. rewrite full_match_lang. split.
  - intros H.
    apply lang_cat_inv in H as (s0 & nl & -> & H & Hnl).
    apply lang_cat_inv in H as (lit & ? & -> & Hlit & H).
    apply lang_cat_inv in H as (sp & ? & -> & Hsp & H).
    apply lang_cat_inv in H as (word & y & -> & Hword & Hy).
    apply lang_lit in Hlit as ->.
    apply lang_opt in Hsp, Hword, Hnl.
    apply lang_four_digits in Hy as [Hl Hd].
    exists sp, word, y, nl. split; [by rewrite <- !app_assoc|].
    split; [destruct Hsp as [Hsp%lang_char|]; auto|].
    split.
    { destruct Hword as [Hw|]; [|auto]. right.
      apply lang_cat_inv in Hw as (w & ? & -> & Hw & ->%lang_char).
      exists w. split; [done|].
      apply lang_star_cls in Hw. eapply Forall_impl; [exact Hw|].
      cbn. intros c Hc. by destruct (py_isspace c). }
    split; [done|]. split; [done|].
    destruct Hnl as [Hnl%lang_char|]; auto.
  - intros (sp & word & y & nl & -> & Hsp & Hword & Hl & Hd & Hnl).
    replace (chars "Autodesk Revit" ++ sp ++ word ++ y ++ nl)
      with ((chars "Autodesk Revit" ++ sp ++ word ++ y) ++ nl)
      by (by rewrite <- !app_assoc).
    apply lang_cat.
    + apply lang_cat; [by apply lang_lit|].
      apply lang_cat.
      { apply lang_opt. destruct Hsp as [->| ->]; [by right|left].
        by apply lang_char. }
      apply lang_cat; [|by apply lang_four_digits].
      apply lang_opt. destruct Hword as [->|(w & -> & Hw)]; [by right|left].
      apply lang_cat; [|by apply lang_char].
      apply lang_star_cls. eapply Forall_impl; [exact Hw|].
      cbn. by intros c ->.
    + apply lang_opt. destruct Hnl as [->| ->]; [by right|left].
      by apply lang_char.
Qed.

(** ** installed_rvt_detection *)

Lemma key_version_year k v : key_version k = Some v → is_year v.
Proof.
  unfold key_version.
  destruct (search_classes _ _) as [m|] eqn:Hs; [|discriminate].
  intros [= <-].
  destruct (search_classes_Some _ _ _ Hs) as (_ & _ & _ & Hm & _).
  apply year_match in Hm as [Hl Hd]. by apply is_year_text.
Qed.

Lemma accepted_has_version k :
  Autodetect.accepted k = true → is_Some (key_version k).
Proof.
  unfold Autodetect.accepted, key_version. intros H.
  apply adsk_lang in H as (sp & word & y & nl & -> & _ & _ & Hl & Hd & _).
  assert (is_Some (search_classes year_pattern
            ((chars "Autodesk Revit" ++ sp ++ word) ++ y ++ nl))) as [m Hm].
  { apply search_classes_is_Some.
    destruct y as [|a [|b [|c [|d [|]]]]]; try discriminate.
    repeat match goal with
           | H : Forall _ (_ :: _) |- _ => apply Forall_cons_1 in H as [? H]
           end.
    by repeat constructor. }
  rewrite <- !app_assoc in Hm. rewrite Hm. by eexists.
Qed.

Lemma rvt_reg_keys_accepted keys :
  Forall (λ k, Autodetect.accepted k = true) (Autodetect.rvt_reg_keys keys).
Proof.
  apply Forall_forall. intros k Hk.
  by apply list_elem_of_filter in Hk as [? _].
Qed.

Lemma install_paths_step rk rest m :
  Autodetect.install_paths (rk :: rest) m =
  match key_version rk with
  | None => inl Autodetect.TypeError
  | Some v =>
      match install_location rk with
      | None => inl Autodetect.OSError
      | Some location =>
          Autodetect.install_paths rest (<[v := location +:+ "Revit.exe"]> m)
      end
  end.
Proof.
  unfold key_version. cbn. by destruct (search_classes _ _).
Qed.

Lemma install_paths_no_type_error l : ∀ m,
  Forall (λ k, Autodetect.accepted k = true) l →
  Autodetect.install_paths l m ≠ inl Autodetect.TypeError.
Proof.
  induction l as [|rk rest IH]; intros m Hl; [done|].
  apply Forall_cons_1 in Hl as [Hrk Hrest].
  rewrite install_paths_step.
  destruct (accepted_has_version rk Hrk) as [v ->].
  destruct (install_location rk); [by apply IH|done].
Qed.

(** X16: The version lookup on a subkey the first loop accepted cannot fail:
    when [installed_rvt_detection] fails, it is with the registry's error
    on a missing InstallLocation or with the key error of a version that
    is not installed, never with the TypeError of a missing match. *)
Theorem accepted_keys_have_a_version (keys : list uninstall_key)
    (search_version : option string) (e : Autodetect.failure) :
  Autodetect.installed_rvt_detection keys search_version = inl e →
  e = Autodetect.OSError ∨ e = Autodetect.VersionKeyError.
Proof.
  unfold Autodetect.installed_rvt_detection.
  pose proof (install_paths_no_type_error (Autodetect.rvt_reg_keys keys) ∅
                (rvt_reg_keys_accepted keys)) as H.
  destruct (Autodetect.install_paths _ _) as [e'|m].
  - intros [= <-]. destruct e'; [congruence|by left|by right].
  - destruct (m !! _); [discriminate|]. intros [= <-]. by right.
Qed.

Lemma accepted_keys_have_a_version_witness :
  Autodetect.installed_rvt_detection sample_registry (Some "2020") =
    inl Autodetect.VersionKeyError ∧
  (Autodetect.VersionKeyError = Autodetect.OSError ∨
   Autodetect.VersionKeyError = Autodetect.VersionKeyError).
Proof.
  assert (Autodetect.installed_rvt_detection sample_registry (Some "2020") =
          inl Autodetect.VersionKeyError) as H by (vm_compute; reflexivity).
  split; [exact H|].
  exact (accepted_keys_have_a_version sample_registry (Some "2020") _ H).
Defined.

Lemma install_paths_keys l : ∀ m m' k,
  Autodetect.install_paths l m = inr m' →
  is_Some (m' !! k) → is_Some (m !! k) ∨ is_year k.
Proof.
  induction l as [|rk rest IH]; intros m m' k.
  - intros [= <-]. auto.
  - rewrite install_paths_step.
    destruct (key_version rk) as [v|] eqn:Hv; [|discriminate].
    destruct (install_location rk) as [loc|]; [|discriminate].
    intros Hrest Hk. destruct (IH _ _ _ Hrest Hk) as [Hin|Hy]; [|by right].
    rewrite lookup_insert in Hin. case_decide; [|by left].
    subst k. right. by apply key_version_year with rk.
Qed.

Lemma none_is_no_year : ¬ is_year (Autodetect.str None).
Proof.
  intros [_ Hd]. apply Forall_cons_1 in Hd as [Hd _]. discriminate Hd.
Qed.

Lemma installed_only_years (keys : list uninstall_key)
    (search_version : option string) (path : string) :
  Autodetect.installed_rvt_detection keys search_version = inr path →
  is_year (Autodetect.str search_version).
Proof.
  unfold Autodetect.installed_rvt_detection.
  destruct (Autodetect.install_paths _ _) as [e|m] eqn:Hm; [discriminate|].
  destruct (m !! Autodetect.str search_version) as [p|] eqn:Hp; [|discriminate].
  intros _.
  destruct (install_paths_keys _ _ _ (Autodetect.str search_version) Hm)
    as [Hin|Hy]; [by rewrite Hp| |done].
  rewrite lookup_empty in Hin. by destruct Hin.
Qed.

(** X17: An install path is only ever found for a search version of four
    digits.  For a model that is no OLE file, where the version is None
    and is searched as the text [None], the detection always fails. *)
Theorem found_version_is_year (keys : list uninstall_key) :
  (∀ search_version path,
     Autodetect.installed_rvt_detection keys search_version = inr path →
     is_year (Autodetect.str search_version)) ∧
  (∀ path, Autodetect.installed_rvt_detection keys None ≠ inr path).
Proof.
  split; [apply installed_only_years|].
  intros path Hp. by apply none_is_no_year, (installed_only_years keys None path).
Qed.

Lemma found_version_is_year_witness :
  Autodetect.installed_rvt_detection sample_registry (Some "2017") =
    inr "C:/Autodesk/Revit 2017/Revit.exe" ∧
  is_year "2017".
Proof.
  assert (Autodetect.installed_rvt_detection sample_registry (Some "2017") =
          inr "C:/Autodesk/Revit 2017/Revit.exe") as H
    by (vm_compute; reflexivity).
  split; [exact H|].
  exact (proj1 (found_version_is_year sample_registry) (Some "2017") _ H).
Defined.

Lemma install_paths_lookup_other l v : ∀ m m',
  Autodetect.install_paths l m = inr m' →
  Forall (λ k, key_version k ≠ Some v) l →
  m' !! v = m !! v.
Proof.
  induction l as [|rk rest IH]; intros m m'.
  - by intros [= <-].
  - rewrite install_paths_step. intros H Hl.
    apply Forall_cons_1 in Hl as [Hrk Hrest].
    destruct (key_version rk) as [v'|]; [|discriminate].
    destruct (install_location rk) as [loc|]; [|discriminate].
    rewrite (IH _ _ H Hrest). apply lookup_insert_ne. congruence.
Qed.

Lemma install_paths_app l1 l2 m :
  Autodetect.install_paths (l1 ++ l2) m =
  match Autodetect.install_paths l1 m with
  | inl e => inl e
  | inr m1 => Autodetect.install_paths l2 m1
  end.
Proof.
  revert m. induction l1 as [|rk rest IH]; intros m; [reflexivity|].
  cbn [app]. rewrite !install_paths_step.
  destruct (key_version rk); [|done].
  destruct (install_location rk); [|done].
  apply IH.
Qed.

Lemma install_paths_total l : ∀ m,
  Forall (λ k, Autodetect.accepted k = true) l →
  Forall (λ k, is_Some (install_location k)) l →
  ∃ m', Autodetect.install_paths l m = inr m'.
Proof.
  induction l as [|rk rest IH]; intros m Ha Hl; [by eexists|].
  apply Forall_cons_1 in Ha as [Hrk Ha]. apply Forall_cons_1 in Hl as [Hloc Hl].
  rewrite install_paths_step.
  destruct (accepted_has_version rk Hrk) as [v ->].
  destruct Hloc as [loc ->]. by apply IH.
Qed.

(** X18: Where the path that is returned comes from: an accepted subkey whose
    version is the one searched and after which, in [EnumKey] order, no
    accepted subkey has that version; the path is its InstallLocation
    followed by [Revit.exe]. *)
Theorem installed_path_source (keys : list uninstall_key)
    (search_version : option string) (path : string) :
  Autodetect.installed_rvt_detection keys search_version = inr path →
  ∃ before rk after location,
    Autodetect.rvt_reg_keys keys = before ++ rk :: after ∧
    key_version rk = Some (Autodetect.str search_version) ∧
    install_location rk = Some location ∧
    path = location +:+ "Revit.exe" ∧
    Forall (λ k, key_version k ≠ Some (Autodetect.str search_version)) after.
Proof.
  unfold Autodetect.installed_rvt_detection.
  destruct (Autodetect.install_paths _ _) as [e|m'] eqn:Hm; [discriminate|].
  destruct (m' !! _) as [p|] eqn:Hp; [|discriminate]. intros [= ->].
  set (v := Autodetect.str search_version) in *.
  assert (∀ l m m', Autodetect.install_paths l m = inr m' →
            m' !! v = Some path →
            (m !! v = Some path ∧ Forall (λ k, key_version k ≠ Some v) l) ∨
            ∃ before rk after location,
              l = before ++ rk :: after ∧ key_version rk = Some v ∧
              install_location rk = Some location ∧
              path = location +:+ "Revit.exe" ∧
              Forall (λ k, key_version k ≠ Some v) after) as Hgen.
  { clear. induction l as [|rk rest IH]; intros m m'.
    - intros [= <-] Hp. left. by split.
    - rewrite install_paths_step.
      destruct (key_version rk) as [v'|] eqn:Hv; [|discriminate].
      destruct (install_location rk) as [loc|] eqn:Hloc; [|discriminate].
      intros Hrest Hp.
      destruct (IH _ _ Hrest Hp)
        as [[Hin Hall]|(before & rk' & after & loc' & -> & ? & ? & ? & ?)].
      + rewrite lookup_insert in Hin. case_decide as Hvv.
        * right. exists [], rk, rest, loc. injection Hin as <-. subst v'.
          done.
        * left. split; [done|]. constructor; [congruence|done].
      + right. by exists (rk :: before), rk', after, loc'. }
  destruct (Hgen _ _ _ Hm Hp) as [[Hin _]|H]; [|exact H].
  by rewrite lookup_empty in Hin.
Qed.

Lemma installed_path_source_witness :
  Autodetect.installed_rvt_detection sample_registry (Some "2015") =
    inr "C:/Autodesk/Revit Architecture 2015/Revit.exe" ∧
  ∃ rk location,
    key_version rk = Some "2015" ∧ install_location rk = Some location ∧
    "C:/Autodesk/Revit Architecture 2015/Revit.exe" = location +:+ "Revit.exe".
Proof.
  assert (Autodetect.installed_rvt_detection sample_registry (Some "2015") =
          inr "C:/Autodesk/Revit Architecture 2015/Revit.exe") as H
    by (vm_compute; reflexivity).
  split; [exact H|].
  destruct (installed_path_source sample_registry (Some "2015") _ H)
    as (before & rk & after & location & _ & Hv & Hl & Hp & _).
  exists rk, location. split; [exact Hv|]. split; [exact Hl|exact Hp].
Defined.

(** X19: The other direction: when every accepted subkey has an
    InstallLocation, the last accepted subkey of the searched version, in
    [EnumKey] order, gives the path; an earlier one of the same version
    is overwritten. *)
Theorem last_release_entry_wins (keys before after : list uninstall_key)
    (rk : uninstall_key) (search_version : option string)
    (location : string) :
  Autodetect.rvt_reg_keys keys = before ++ rk :: after →
  Forall (λ k, is_Some (install_location k)) (Autodetect.rvt_reg_keys keys) →
  key_version rk = Some (Autodetect.str search_version) →
  install_location rk = Some location →
  Forall (λ k, key_version k ≠ Some (Autodetect.str search_version)) after →
  Autodetect.installed_rvt_detection keys search_version =
  inr (location +:+ "Revit.exe").
Proof.
  intros Hsplit Hloc Hv Hl Hafter.
  pose proof (rvt_reg_keys_accepted keys) as Hacc.
  unfold Autodetect.installed_rvt_detection.
  rewrite Hsplit in *. rewrite install_paths_app.
  apply Forall_app in Hacc as [Hacc1 Hacc2], Hloc as [Hloc1 Hloc2].
  destruct (install_paths_total before ∅ Hacc1 Hloc1) as [m1 ->].
  rewrite install_paths_step, Hv, Hl.
  apply Forall_cons_1 in Hacc2 as [_ Hacc2], Hloc2 as [_ Hloc2].
  destruct (install_paths_total after
              (<[Autodetect.str search_version := location +:+ "Revit.exe"]> m1)
              Hacc2 Hloc2) as [m' Hm'].
  rewrite Hm', (install_paths_lookup_other _ _ _ _ Hm' Hafter).
  by rewrite lookup_insert_eq.
Qed.

Lemma last_release_entry_wins_witness :
  Autodetect.installed_rvt_detection
    [{| key_name := "Autodesk Revit 2017"; install_location := Some "C:/a/" |};
     {| key_name := "Autodesk Revit LT 2017"; install_location := Some "C:/b/" |}]
    (Some "2017") = inr "C:/b/Revit.exe".
Proof.
  refine (last_release_entry_wins _
    [{| key_name := "Autodesk Revit 2017"; install_location := Some "C:/a/" |}]
    [] {| key_name := "Autodesk Revit LT 2017";
          install_location := Some "C:/b/" |}
    (Some "2017") "C:/b/" _ _ _ eq_refl (Forall_nil_2 _)).
  - vm_compute. reflexivity.
  - repeat constructor; by eexists.
  - vm_compute. reflexivity.
Defined.

Lemma install_paths_missing_location l k : ∀ m,
  Forall (λ k, Autodetect.accepted k = true) l →
  k ∈ l → install_location k = None →
  Autodetect.install_paths l m = inl Autodetect.OSError.
Proof.
  induction l as [|rk rest IH]; intros m Ha Hk Hnone.
  - by apply elem_of_nil in Hk.
  - apply Forall_cons_1 in Ha as [Hrk Ha].
    rewrite install_paths_step.
    destruct (accepted_has_version rk Hrk) as [v ->].
    destruct (install_location rk) as [loc|] eqn:Hloc; [|done].
    apply elem_of_cons in Hk as [->|Hk]; [congruence|]. by apply IH.
Qed.

(** X20: One accepted subkey without an InstallLocation value makes the
    detection fail with the registry's error whatever version is
    searched, also when that version is installed and well described. *)
Theorem missing_location_blocks_detection (keys : list uninstall_key)
    (k : uninstall_key) (search_version : option string) :
  k ∈ keys → Autodetect.accepted k = true → install_location k = None →
  Autodetect.installed_rvt_detection keys search_version =
  inl Autodetect.OSError.
Proof.
  intros Hin Hacc Hnone. unfold Autodetect.installed_rvt_detection.
  rewrite (install_paths_missing_location (Autodetect.rvt_reg_keys keys) k).
  - done.
  - apply rvt_reg_keys_accepted.
  - by apply list_elem_of_filter.
  - done.
Qed.

Lemma missing_location_blocks_detection_witness :
  Autodetect.installed_rvt_detection
    ({| key_name := "Autodesk Revit 2019"; install_location := None |} ::
     sample_registry) (Some "2017") = inl Autodetect.OSError.
Proof.
  apply (missing_location_blocks_detection _
           {| key_name := "Autodesk Revit 2019"; install_location := None |}).
  - by left.
  - vm_compute. reflexivity.
  - reflexivity.
Defined.

Lemma text_nil_iff l : text l = EmptyString ↔ l = [].
Proof. split; [by destruct l|by intros ->]. Qed.

(** X15: The subkey names the first loop accepts: [Autodesk Revit], then an
    optional space, then an optional word without white space that is
    followed by a space, then four digits, then at most one newline. *)
Theorem accepted_key_shape (k : uninstall_key) :
  Autodetect.accepted k = true ↔
  ∃ sp word y nl : string,
    key_name k = "Autodesk Revit" +:+ sp +:+ word +:+ y +:+ nl ∧
    (sp = EmptyString ∨ sp = space_string) ∧
    (word = EmptyString ∨
     ∃ w, word = w +:+ space_string ∧
          Forall (λ c, py_isspace c = false) (chars w)) ∧
    is_year y ∧
    (nl = EmptyString ∨ nl = newline_string).
Proof.
  unfold Autodetect.accepted. rewrite adsk_lang. split.
  - intros (sp & word & y & nl & Hk & Hsp & Hword & Hl & Hd & Hnl).
    exists (text sp), (text word), (text y), (text nl). split.
    { apply chars_inj. rewrite Hk, !chars_app.
      by rewrite !String.list_ascii_of_string_of_list_ascii. }
    split; [destruct Hsp as [->| ->]; auto|].
    split.
    { destruct Hword as [->|(w & -> & Hw)]; [by left|right].
      exists (text w). split; [by rewrite text_app|].
      by rewrite String.list_ascii_of_string_of_list_ascii. }
    split; [by apply is_year_text|].
    destruct Hnl as [->| ->]; auto.
  - intros (sp & word & y & nl & Hk & Hsp & Hword & [Hl Hd] & Hnl).
    exists (chars sp), (chars word), (chars y), (chars nl). split.
    { by rewrite Hk, !chars_app. }
    split; [destruct Hsp as [->| ->]; auto|].
    split.
    { destruct Hword as [->|(w & -> & Hw)]; [by left|right].
      exists (chars w). split; [by rewrite chars_app|done]. }
    split; [done|]. split; [done|].
    destruct Hnl as [->| ->]; auto.
Qed.

Lemma accepted_key_shape_witness :
  Autodetect.accepted
    {| key_name := "Autodesk Revit Architecture 2015";
       install_location := None |} = true.
Proof.
  apply accepted_key_shape.
  exists space_string, "Architecture ", "2015", EmptyString.
  split; [reflexivity|]. split; [by right|].
  split.
  - right. exists "Architecture". split; [reflexivity|].
    repeat constructor.
  - split; [|by left]. split; [reflexivity|repeat constructor].
Defined.

Lemma search_year_after_nondigits pre y post :
  Forall (λ c, py_isdigit c = false) pre →
  length y = 4%nat → Forall (λ c, py_isdigit c = true) y →
  search_classes year_pattern (pre ++ y ++ post) = Some y.
Proof.
  intros Hpre Hl Hd. apply search_classes_at.
  - destruct y as [|a [|b [|c [|d [|]]]]]; try discriminate.
    repeat match goal with
           | H : Forall _ (_ :: _) |- _ => apply Forall_cons_1 in H as [? H]
           end.
    by repeat constructor.
  - intros skipped rest -> Hne.
    apply Forall_app in Hpre as [_ Hrest].
    destruct rest as [|c rest]; [done|].
    apply Forall_cons_1 in Hrest as [Hc _]. cbn. by rewrite Hc.
Qed.

Lemma prefix_has_no_digit :
  Forall (λ c, py_isdigit c = false) (chars "Autodesk Revit ").
Proof. repeat constructor. Qed.

(** X21: A subkey named [Autodesk Revit <year>] or
    [Autodesk Revit <word> <year>], where the word has neither white
    space nor a digit, is accepted and filed under that year. *)
Theorem release_key_registers_year (k : uninstall_key) (word y : string) :
  is_year y →
  Forall (λ c, py_isspace c = false ∧ py_isdigit c = false) (chars word) →
  key_name k = "Autodesk Revit " +:+ y ∨
  key_name k = "Autodesk Revit " +:+ word +:+ space_string +:+ y →
  Autodetect.accepted k = true ∧ key_version k = Some y.
Proof.
  intros [Hl Hd] Hword Hname. split.
  - unfold Autodetect.accepted. apply adsk_lang.
    destruct Hname as [->| ->].
    + exists [space_char], [], (chars y), []. rewrite chars_app.
      split; [by rewrite app_nil_r|]. auto 10.
    + exists [space_char], (chars word ++ [space_char]), (chars y), [].
      rewrite !chars_app. split; [by rewrite app_nil_r, <- !app_assoc|].
      split; [auto|]. split; [|auto].
      right. exists (chars word). split; [done|].
      eapply Forall_impl; [exact Hword|]. by intros c [? _].
  - unfold key_version.
    assert (∃ pre, chars (key_name k) = pre ++ chars y ++ [] ∧
                   Forall (λ c, py_isdigit c = false) pre) as (pre & -> & Hpre).
    { destruct Hname as [->| ->].
      - exists (chars "Autodesk Revit "). rewrite chars_app, app_nil_r.
        split; [done|apply prefix_has_no_digit].
      - exists (chars "Autodesk Revit " ++ chars word ++ [space_char]).
        rewrite !chars_app, app_nil_r, <- !app_assoc. split; [done|].
        apply Forall_app. split; [apply prefix_has_no_digit|].
        apply Forall_app. split; [|by repeat constructor].
        eapply Forall_impl; [exact Hword|]. by intros c [_ ?]. }
    rewrite search_year_after_nondigits by done.
    cbn. by rewrite String.string_of_list_ascii_of_string.
Qed.

Lemma release_key_registers_year_witness :
  key_version {| key_name := "Autodesk Revit LT 2019";
                 install_location := None |} = Some "2019".
Proof.
  refine (proj2 (release_key_registers_year
    {| key_name := "Autodesk Revit LT 2019"; install_location := None |}
    "LT" "2019" _ _ (or_intror eq_refl))).
  - split; [reflexivity|repeat constructor].
  - repeat constructor.
Defined.

(** X22: The version of a subkey is the first run of four digits in its name,
    not the year the name ends in: a subkey named
    [Autodesk Revit <year1><rest> <year2>] is accepted and filed under
    [year1]. *)
Theorem first_year_in_name_is_version (k : uninstall_key)
    (y1 rest y2 : string) :
  is_year y1 → is_year y2 →
  Forall (λ c, py_isspace c = false) (chars rest) →
  key_name k = "Autodesk Revit " +:+ y1 +:+ rest +:+ space_string +:+ y2 →
  Autodetect.accepted k = true ∧ key_version k = Some y1.
Proof.
  intros [Hl1 Hd1] [Hl2 Hd2] Hrest Hname. split.
  - unfold Autodetect.accepted. apply adsk_lang.
    exists [space_char], ((chars y1 ++ chars rest) ++ [space_char]),
      (chars y2), [].
    rewrite Hname, !chars_app.
    split; [by rewrite app_nil_r, <- !app_assoc|].
    split; [auto|]. split; [|auto].
    right. exists (chars y1 ++ chars rest). split; [done|].
    apply Forall_app. split; [|done].
    eapply Forall_impl; [exact Hd1|]. intros c. apply digit_not_space.
  - unfold key_version. rewrite Hname, !chars_app.
    rewrite search_year_after_nondigits
      by (done || apply prefix_has_no_digit).
    cbn. by rewrite String.string_of_list_ascii_of_string.
Qed.

Lemma first_year_in_name_is_version_witness :
  key_version {| key_name := "Autodesk Revit 2019.1 2020";
                 install_location := None |} = Some "2019".
Proof.
  refine (proj2 (first_year_in_name_is_version
    {| key_name := "Autodesk Revit 2019.1 2020"; install_location := None |}
    "2019" ".1" "2020" _ _ _ eq_refl)).
  - split; [reflexivity|repeat constructor].
  - split; [reflexivity|repeat constructor].
  - repeat constructor.
Defined.

(** ** The detection functions inside a run *)

Lemma detection_failure_orphans_process_witness :
  get_rvt_file_version (with_autodetect (hanging "audit" 5) text_file
                          sample_registry) = Some None ∧
  result (main (with_autodetect (hanging "audit" 5) text_file
                  sample_registry)) = Raised CollaboratorError ∧
  killed (trace (main (with_autodetect (hanging "audit" 5) text_file
                         sample_registry))) = [].
Proof.
  split; [reflexivity|].
  destruct (detection_failure_orphans_process
              (with_autodetect (hanging "audit" 5) text_file sample_registry)
              {[ "audit" := "' " ]} "' " revit_exe revit_exe [] [])
    as (Hr & _ & _ & Hk & _).
  - vm_compute. reflexivity.
  - vm_compute. reflexivity.
  - vm_compute. reflexivity.
  - reflexivity.
  - reflexivity.
  - right. exists None. split; vm_compute; reflexivity.
  - split; [exact Hr|exact Hk].
Defined.



